(** * Prediction retrieval and normalization: [PrintViewSet.prediction_json]

    A shallow embedding of [web/api/viewsets.py], lines 171-225: the view
    that fetches the per-frame failure-detection timeline of a print from
    the upstream store with a conditional GET and rewrites every frame with
    a normalized probability.

    The view is effectful: it calls the network ([requests.get]), parses
    the body ([r.json()]) and calls the calibration engine
    ([calc_normalized_p]).  These calls are recorded, in order, in a trace
    of events threaded through an exception monad, so that statements such
    as "no network call is made" are statements about the trace. *)

From Stdlib Require Import ZArith String Ascii Floats.PrimFloat.
From stdpp Require Import base option list strings gmap fin_maps sorting pretty.

Set Warnings "-register-all".

Local Open Scope string_scope.
Local Open Scope list_scope.
Local Open Scope Z_scope.

(** ** JSON values, as [r.json()] returns them

    Python's [json] module yields [None], [bool], [int], [float], [str],
    [list] and [dict] with string keys. *)

Inductive json : Type :=
  | JNull
  | JBool (b : bool)
  | JInt (n : Z)
  | JFloat (x : float)
  | JStr (s : string)
  | JArr (l : list json)
  | JObj (d : gmap string json).

(** ** Case-insensitive header mappings

    Both [request.headers] (Django's [HttpHeaders]) and [r.headers]
    (requests' [CaseInsensitiveDict]) store their entries under the
    lower-cased header name and lower-case the key of every lookup. *)

Definition ascii_lower (c : ascii) : ascii :=
  let n := nat_of_ascii c in
  if ((65 <=? n)%nat && (n <=? 90)%nat)%bool then ascii_of_nat (n + 32) else c.

Fixpoint lower (s : string) : string :=
  match s with
  | EmptyString => EmptyString
  | String c s' => String (ascii_lower c) (lower s')
  end.

Record CaseInsensitiveDict : Type := CIDict { ci_store : gmap string string }.

(** [h.get(k)]: [None] when the header is absent. *)
Definition ci_get (k : string) (h : CaseInsensitiveDict) : option string :=
  ci_store h !! lower k.

(** [h[k] = v]. *)
Definition ci_set (k v : string) (h : CaseInsensitiveDict) : CaseInsensitiveDict :=
  CIDict (<[lower k := v]> (ci_store h)).

Definition ci_empty : CaseInsensitiveDict := CIDict ∅.

Definition ci_of_list (l : list (string * string)) : CaseInsensitiveDict :=
  foldr (λ kv h, ci_set kv.1 kv.2 h) ci_empty l.

(** The dict comprehension [{k: v for k, v in d.items() if v is not None}]. *)
Definition drop_none (d : gmap string (option string)) : gmap string string :=
  omap id d.

(** ** The models the view reads (app.models) *)

Record Printer : Type := { detective_sensitivity : float }.

(** [prediction_json_url] is declared [null=True]; [printer] is the
    [select_related] foreign key, [None] when the print has no printer. *)
Record Print : Type := {
  prediction_json_url : option string;
  printer : option Printer
}.

(** ** Requests and responses *)

Record HttpRequest : Type := { request_headers : CaseInsensitiveDict }.

(** What [requests.get] returns: the status, the headers, and the outcome
    of decoding the body as JSON ([None] when [r.json()] raises). *)
Record UpstreamResponse : Type := {
  status_code : Z;
  headers : CaseInsensitiveDict;
  json_body : option json
}.

(** rest_framework's [Response(data, status, headers)]. *)
Record Response : Type := {
  resp_data : option json;
  resp_status : Z;
  resp_headers : gmap string string
}.

Definition HTTP_200_OK : Z := 200.

(** [status] and [headers] default to [None]: status 200, no headers. *)
Definition mkResponse (data : option json) (status : option Z)
    (hdrs : option (gmap string string)) : Response :=
  {| resp_data := data;
     resp_status := default HTTP_200_OK status;
     resp_headers := default ∅ hdrs |}.

(** ** Exceptions and events *)

Inductive exn : Type :=
  | Http404
  | Timeout
  | ConnectionError
  | HTTPError (status : Z)
  | JSONDecodeError
  | TypeError
  | EngineError.

Definition PREDICTION_FETCH_TIMEOUT : Z := 20.

Section Pipeline.

(** The instance type of the [PrinterPrediction] model. *)
Variable prediction : Type.

(** The [PrinterPrediction] constructor applied to keyword arguments:
    [None] when it rejects them (it raises [TypeError]). *)
Variable PrinterPrediction : gmap string json → option prediction.

(** [calc_normalized_p(detective_sensitivity, pred)]; [None] when the
    call raises. *)
Variable calc_normalized_p : float → prediction → option float.

(** [Printer._meta.get_field('detective_sensitivity').get_default()]. *)
Variable detective_sensitivity_default : float.

(** The upstream store: what [requests.get(url, timeout, headers)]
    does, an exception or a response. *)
Variable upstream : string → Z → gmap string string → exn + UpstreamResponse.

Inductive event : Type :=
  | EvGet (url : string) (timeout : Z) (hdrs : gmap string string)
  | EvJson
  | EvCalc (sensitivity : float) (pred : prediction).

(** *** The monad: exceptions over a trace of events *)

Definition M (A : Type) : Type := list event → (exn + A) * list event.

Definition ret {A} (a : A) : M A := λ t, (inr a, t).
Definition raise {A} (e : exn) : M A := λ t, (inl e, t).
Definition bind {A B} (m : M A) (k : A → M B) : M B :=
  λ t, match m t with
       | (inl e, t') => (inl e, t')
       | (inr a, t') => k a t'
       end.
Definition emit (e : event) : M unit := λ t, (inr tt, (t ++ [e])%list).

Notation "x <- m ;; k" := (bind m (λ x, k))
  (at level 100, m at next level, right associativity).

(** *** The calls of the view *)

Definition get_object_or_404 (queryset : gmap Z Print) (pk : Z) : M Print :=
  match queryset !! pk with
  | Some p => ret p
  | None => raise Http404
  end.

Definition requests_get (url : string) (timeout : Z)
    (hdrs : gmap string string) : M UpstreamResponse :=
  _ <- emit (EvGet url timeout hdrs) ;;
  match upstream url timeout hdrs with
  | inl e => raise e
  | inr r => ret r
  end.

(** requests' [Response.raise_for_status]: [HTTPError] for a client
    (4xx) or server (5xx) error status, nothing otherwise. *)
Definition raise_for_status (r : UpstreamResponse) : M unit :=
  if ((400 <=? status_code r)%Z && (status_code r <? 600)%Z)%bool
  then raise (HTTPError (status_code r))
  else ret tt.

Definition r_json (r : UpstreamResponse) : M json :=
  _ <- emit EvJson ;;
  match json_body r with
  | Some j => ret j
  | None => raise JSONDecodeError
  end.

Definition call_PrinterPrediction (fields : json) : M prediction :=
  match fields with
  | JObj kw =>
      match PrinterPrediction kw with
      | Some pred => ret pred
      | None => raise TypeError
      end
  | _ => raise TypeError (* the unpacked argument is not a mapping *)
  end.

Definition call_calc_normalized_p (s : float) (pred : prediction) : M float :=
  _ <- emit (EvCalc s pred) ;;
  match calc_normalized_p s pred with
  | Some v => ret v
  | None => raise EngineError
  end.

(** [x[k] = v] on a JSON value: only a [dict] supports it with a string
    key. *)
Definition setitem (x : json) (k : string) (v : json) : M json :=
  match x with
  | JObj d => ret (JObj (<[k := v]> d))
  | _ => raise TypeError
  end.

(** The body of the loop, lines 213-220, on one element of [data]; the
    result is the element after its in-place update.  On anything but a
    [dict] every path raises [TypeError]: [in] on a number, a boolean or
    [None]; item assignment or a string index on a [str] or a [list]. *)
Definition loop_body (s : float) (raw_pred : json) : M json :=
  match raw_pred with
  | JObj d =>
      match d !! "fields" with
      | None =>
          ret (JObj (<["fields" := JObj {["normalized_p" := JFloat 0%float]}]> d))
      | Some fields =>
          pred <- call_PrinterPrediction fields ;;
          v <- call_calc_normalized_p s pred ;;
          fields' <- setitem fields "normalized_p" (JFloat v) ;;
          ret (JObj (<["fields" := fields']> d))
      end
  | _ => raise TypeError
  end.

Fixpoint for_each (s : float) (l : list json) : M (list json) :=
  match l with
  | [] => ret []
  | raw_pred :: l' =>
      x <- loop_body s raw_pred ;;
      xs <- for_each s l' ;;
      ret (x :: xs)
  end.

(** [for raw_pred in data: ...] for whatever [r.json()] returned.  A
    [list] is walked element by element.  Iterating a [dict] yields its
    keys and iterating a [str] its characters, all of them [str], on
    which the body raises; an empty [dict] or [str] is left as it is.
    Nothing else is iterable. *)
Definition for_loop (s : float) (data : json) : M json :=
  match data with
  | JArr l => l' <- for_each s l ;; ret (JArr l')
  | JObj d => if decide (size d = 0%nat) then ret data else raise TypeError
  | JStr str => if decide (str = "") then ret data else raise TypeError
  | _ => raise TypeError
  end.

(** Lines 206-210. *)
Definition sensitivity_of (p : Print) : float :=
  match printer p with
  | Some pr => detective_sensitivity pr
  | None => detective_sensitivity_default
  end.

(** [not p.prediction_json_url]: [None] and the empty string are falsy. *)
Definition url_is_set (u : option string) : bool :=
  match u with
  | None => false
  | Some s => negb (String.eqb s "")
  end.

(** *** The view, lines 172-225 *)

(** Lines 181-184, the [headers] dict. *)
Definition request_validators (request : HttpRequest) : gmap string (option string) :=
  {[ "If-Modified-Since" := ci_get "if-modified-since" (request_headers request);
     "If-None-Match" := ci_get "if-none-match" (request_headers request) ]}.

(** Lines 191-194, the [resp_headers] dict. *)
Definition response_validators (r : UpstreamResponse) : gmap string (option string) :=
  {[ "Last-Modified" := ci_get "Last-Modified" (headers r);
     "Etag" := ci_get "Etag" (headers r) ]}.

Definition prediction_json (queryset : gmap Z Print) (request : HttpRequest)
    (pk : Z) : M Response :=
  p <- get_object_or_404 queryset pk ;;
  if negb (url_is_set (prediction_json_url p)) then
    ret (mkResponse (Some (JArr [])) None None)
  else
    r <- requests_get (default "" (prediction_json_url p))
           PREDICTION_FETCH_TIMEOUT
           (drop_none (request_validators request)) ;;
    _ <- raise_for_status r ;;
    if (status_code r =? 304)%Z then
      ret (mkResponse None (Some 304) (Some (drop_none (response_validators r))))
    else
      data <- r_json r ;;
      let s := sensitivity_of p in
      data' <- for_loop s data ;;
      ret (mkResponse (Some data') None (Some (drop_none (response_validators r)))).

(** Running a computation on a fresh trace. *)
Definition run {A} (m : M A) : (exn + A) * list event := m [].

End Pipeline.

Arguments EvGet {prediction} url timeout hdrs.
Arguments EvJson {prediction}.
Arguments EvCalc {prediction} sensitivity pred.
Arguments ret {prediction A} a.
Arguments raise {prediction A} e.
Arguments bind {prediction A B} m k.
Arguments emit {prediction} e.
Arguments get_object_or_404 {prediction} queryset pk.
Arguments requests_get {prediction} upstream url timeout hdrs.
Arguments raise_for_status {prediction} r.
Arguments r_json {prediction} r.
Arguments call_PrinterPrediction {prediction} PrinterPrediction fields.
Arguments call_calc_normalized_p {prediction} calc_normalized_p s pred.
Arguments setitem {prediction} x k v.
Arguments loop_body {prediction} PrinterPrediction calc_normalized_p s raw_pred.
Arguments for_each {prediction} PrinterPrediction calc_normalized_p s l.
Arguments for_loop {prediction} PrinterPrediction calc_normalized_p s data.
Arguments prediction_json {prediction} PrinterPrediction calc_normalized_p
  detective_sensitivity_default upstream queryset request pk.
Arguments run {prediction A} m.

(** ** A small installation to run the view on

    A prediction model with two declared fields, whose constructor rejects
    any other keyword, an engine that scales the raw signal by the
    sensitivity, and a store that gives every GET the same answer. *)

Module Demo.

Definition prediction : Type := gmap string json.

Definition model_fields : list string := ["p"; "no_error"].

Definition PrinterPrediction (kw : gmap string json) : option prediction :=
  if forallb (λ k, bool_decide (k ∈ model_fields)) (map_to_list kw).*1
  then Some kw else None.

Definition calc_normalized_p (s : float) (pred : prediction) : option float :=
  match pred !! "p" with
  | Some (JFloat x) => Some (PrimFloat.mul s x)
  | Some _ => None
  | None => Some 0%float
  end.

Definition detective_sensitivity_default : float := 1%float.

Definition store (r : exn + UpstreamResponse)
    : string → Z → gmap string string → exn + UpstreamResponse :=
  λ _ _ _, r.

Definition view (r : exn + UpstreamResponse) :=
  prediction_json PrinterPrediction calc_normalized_p
    detective_sensitivity_default (store r).

Definition the_printer : Printer := {| detective_sensitivity := 2%float |}.

Definition print1 : Print :=
  {| prediction_json_url := None; printer := Some the_printer |}.
Definition print2 : Print :=
  {| prediction_json_url := Some "https://store/p2.json";
     printer := Some the_printer |}.
Definition print3 : Print :=
  {| prediction_json_url := Some "https://store/p3.json"; printer := None |}.

Definition queryset : gmap Z Print :=
  {[ 1 := print1; 2 := print2; 3 := print3 ]}.

Definition no_validators : HttpRequest := {| request_headers := ci_empty |}.

Definition conditional : HttpRequest :=
  {| request_headers := ci_of_list [("If-None-Match", "abc")] |}.

Definition empty_validator : HttpRequest :=
  {| request_headers := ci_of_list [("If-None-Match", "")] |}.

Definition frame1 : json :=
  JObj {[ "fields" := JObj {[ "p" := JFloat 0.25%float ]} ]}.

Definition frames : list json := [frame1; JObj ∅].

Definition fresh : UpstreamResponse :=
  {| status_code := 200;
     headers := ci_of_list [("ETag", "v2")];
     json_body := Some (JArr frames) |}.

Definition not_modified : UpstreamResponse :=
  {| status_code := 304;
     headers := ci_of_list [("ETag", "abc")];
     json_body := None |}.

Definition multiple_choices : UpstreamResponse :=
  {| status_code := 300;
     headers := ci_empty;
     json_body := Some (JArr frames) |}.

Definition unavailable : UpstreamResponse :=
  {| status_code := 503; headers := ci_empty; json_body := None |}.

(** A body whose second frame has a ['fields'] that is no field-set. *)
Definition rotten : UpstreamResponse :=
  {| status_code := 200;
     headers := ci_empty;
     json_body := Some (JArr [JObj ∅; JObj {[ "fields" := JNull ]}]) |}.

(** A body that is not JSON. *)
Definition garbled : UpstreamResponse :=
  {| status_code := 200; headers := ci_empty; json_body := None |}.

(** A body that is the empty JSON object. *)
Definition empty_object : UpstreamResponse :=
  {| status_code := 200; headers := ci_empty; json_body := Some (JObj ∅) |}.

(** A body whose second frame is malformed and whose third is fine. *)
Definition rotten_middle : UpstreamResponse :=
  {| status_code := 200;
     headers := ci_empty;
     json_body :=
       Some (JArr ([frame1] ++ JObj {[ "fields" := JNull ]} :: [frame1])) |}.

End Demo.

(** * The other views of the file

    [PrintViewSet.list] (lines 138-163), [PrintShotFeedbackViewSet]
    (lines 245-271) and the command endpoints of [PrinterViewSet]
    (lines 51-119).  The tables the ORM reads are lists of rows; the
    models, the serializers and the methods of a printer live outside this
    file and are parameters. *)

(** Exceptions these views let escape. *)
Inductive view_exn : Type :=
  | VHttp404
  | VValueError
  | VKeyError (key : string)
  | VAttributeError
  | VHTTPError (status : Z)
  | VOther (what : string).

(** The slice [l[start:stop]] of a Python list: a negative index counts
    from the end, and both indices are clamped to the list. *)
Definition slice_index (n i : Z) : Z :=
  if (i <? 0)%Z then Z.max (i + n) 0 else Z.min i n.

Definition py_slice {A} (l : list A) (start stop : Z) : list A :=
  let n := Z.of_nat (length l) in
  let lo := slice_index n start in
  let hi := slice_index n stop in
  take (Z.to_nat (hi - lo)) (drop (Z.to_nat lo) l).

(** The columns of [Print] and [PrintShotFeedback] these views read; a
    nullable column is an [option].  [feedback_print] is the print the
    foreign key of a feedback points to. *)
Record PrintRow : Type := {
  print_id : Z;
  print_user : Z;
  filename : string;
  video_url : option string;
  tagged_video_url : option string;
  cancelled_at : option Z;
  finished_at : option Z;
  alert_overwrite : option string
}.

Record PrintShotFeedbackRow : Type := {
  feedback_id : Z;
  feedback_print : PrintRow;
  answered_at : option Z
}.

Global Instance PrintRow_eq_dec : EqDecision PrintRow.
Proof. solve_decision. Defined.

(** The orders of [order_by('id')], of [order_by('-id')], and of the
    primary key of a feedback. *)
Definition by_id (a b : PrintRow) : Prop := print_id a ≤ print_id b.
Definition by_id_desc (a b : PrintRow) : Prop := print_id b ≤ print_id a.
Definition by_feedback_id (a b : PrintShotFeedbackRow) : Prop :=
  feedback_id a ≤ feedback_id b.

Global Instance by_id_dec : RelDecision by_id.
Proof. intros a b. unfold by_id. apply _. Defined.
Global Instance by_id_desc_dec : RelDecision by_id_desc.
Proof. intros a b. unfold by_id_desc. apply _. Defined.
Global Instance by_feedback_id_dec : RelDecision by_feedback_id.
Proof. intros a b. unfold by_feedback_id. apply _. Defined.

Record PrinterRow : Type := {
  printer_id : Z;
  printer_user : Z;
  service_token : string
}.

(** The calls a command endpoint makes on a printer. *)
Inductive printer_call : Type :=
  | cancel_print
  | pause_print
  | resume_print
  | mute_current_print (mute : bool)
  | acknowledge_alert (alert_overwrite : option string)
  | send_octoprint_command (cmd args : json).

Inductive feedback_event : Type :=
  | EvSendTask (name : string) (args : list json)
  | EvSuperUpdate (pk : string).

Inductive printer_event : Type :=
  | EvPrinterCall (printer : Z) (c : printer_call)
  | EvSendStatusToWeb (printer : Z)
  | EvPost (url : string) (body : json).

(** Exceptions over a trace of events of type [E]. *)
Definition Eff (E A : Type) : Type := list E → (view_exn + A) * list E.

Definition eret {E A} (a : A) : Eff E A := λ t, (inr a, t).
Definition eraise {E A} (e : view_exn) : Eff E A := λ t, (inl e, t).
Definition ebind {E A B} (m : Eff E A) (k : A → Eff E B) : Eff E B :=
  λ t, match m t with
       | (inl e, t') => (inl e, t')
       | (inr a, t') => k a t'
       end.
Definition eemit {E} (e : E) : Eff E unit := λ t, (inr tt, t ++ [e]).

(** The double quote character, as a string. *)
Definition dquote : string := String "034"%char EmptyString.

Section Views.

(** [Print.objects], [PrintShotFeedback.objects] and
    [Printer.with_archived]: the rows each manager yields.  The feedback
    rows are also the ones a print is joined with through its reverse
    relation [printshotfeedback]. *)
Variable Print_objects : list PrintRow.
Variable PrintShotFeedback_objects : list PrintShotFeedbackRow.
Variable Printer_with_archived : list PrinterRow.

(** [int(s)] on a [str]: [None] when it raises [ValueError]. *)
Variable int : string → option Z.

Variable PrintSerializer : PrintRow → json.
Variable PrinterSerializer : PrinterRow → json.

(** A method of a printer: the value it returns, or an exception. *)
Variable printer_method : PrinterRow → printer_call → view_exn + json.

(** [UpdateModelMixin.update] for the feedback of primary key [pk]: the
    [data] of its response, or an exception. *)
Variable super_update : string → view_exn + json.

(** [settings.EXT_3D_GEEKS_ENDPOINT], and what [requests.post(url, json)]
    does: an exception, or the status of the response. *)
Variable EXT_3D_GEEKS_ENDPOINT : string.
Variable requests_post : string → json → view_exn + Z.

Notation "x <- m ;; k" := (ebind m (λ x, k))
  (at level 100, m at next level, right associativity).

(** ** [PrintViewSet.list] *)

(** [order_by('id')] and [order_by('-id')]. *)
Definition order_by_id (descending : bool) (queryset : list PrintRow)
    : list PrintRow :=
  if descending
  then merge_sort by_id_desc queryset
  else merge_sort by_id queryset.

(** The filter of lines 147-148: the join with the unanswered feedback of
    each print yields the print once per such feedback; [distinct()]
    removes the repetitions. *)
Definition need_print_shot_feedback (queryset : list PrintRow) : list PrintRow :=
  remove_dups
    (r ← queryset;
     (λ _, r) <$> filter (λ f, print_id (feedback_print f) = print_id r
                               ∧ answered_at f = None)
                    PrintShotFeedback_objects).

(** Lines 139-154: the queryset before it is sliced. *)
Definition PrintViewSet_list_queryset (user : Z) (GET : gmap string string)
    : list PrintRow :=
  let queryset :=
    filter (λ r, is_Some (video_url r))
      (filter (λ r, print_user r = user) Print_objects) in
  let filter_ := default "none" (GET !! "filter") in
  let queryset :=
    if decide (filter_ = "cancelled")
    then filter (λ r, is_Some (cancelled_at r)) queryset else queryset in
  let queryset :=
    if decide (filter_ = "finished")
    then filter (λ r, is_Some (finished_at r)) queryset else queryset in
  let queryset :=
    if decide (filter_ = "need_alert_overwrite")
    then filter (λ r, alert_overwrite r = None ∧ is_Some (tagged_video_url r))
           queryset
    else queryset in
  let queryset :=
    if decide (filter_ = "need_print_shot_feedback")
    then need_print_shot_feedback queryset else queryset in
  let sorting := default "date_desc" (GET !! "sorting") in
  if decide (sorting = "date_asc")
  then order_by_id false queryset
  else order_by_id true queryset.

(** Lines 156-163. *)
Definition PrintViewSet_list (user : Z) (GET : gmap string string)
    : view_exn + Response :=
  let queryset := PrintViewSet_list_queryset user GET in
  match int (default "0" (GET !! "start")) with
  | None => inl VValueError
  | Some start =>
      match int (default "12" (GET !! "limit")) with
      | None => inl VValueError
      | Some limit =>
          let results := py_slice queryset start (start + limit) in
          inr (mkResponse (Some (JArr (PrintSerializer <$> results))) None None)
      end
  end.

(** ** [PrintShotFeedbackViewSet] *)

(** Lines 245-258.  [int(None)] raises [TypeError] and [int] of a string
    that is no number raises [ValueError]; both are caught.  [if print_id]
    is false for [None] and for 0. *)
Definition PrintShotFeedbackViewSet_get_queryset (user : Z)
    (query_params : gmap string string) : list PrintShotFeedbackRow :=
  let print_id_ : option Z :=
    match query_params !! "print_id" with
    | None => None
    | Some s => int s
    end in
  let qs :=
    filter (λ f, print_user (feedback_print f) = user)
      PrintShotFeedback_objects in
  match print_id_ with
  | Some n =>
      if decide (n = 0) then qs
      else filter (λ f, print_id (feedback_print f) = n) qs
  | None => qs
  end.

(** [QuerySet.first()] on a queryset with no ordering: the row of least
    primary key. *)
Definition first (qs : list PrintShotFeedbackRow) : option PrintShotFeedbackRow :=
  head (merge_sort by_feedback_id qs).

(** The task of lines 266-268. *)
Definition credit_task (user : Z) (f : PrintShotFeedbackRow) : feedback_event :=
  let _print := feedback_print f in
  EvSendTask "app_ent.tasks.credit_dh_for_contribution"
    [ JInt user; JInt 2;
      JStr ("Credit | Focused Feedback - " +:+ dquote
            +:+ substring 0 100 (filename _print) +:+ dquote);
      JStr ("ff:p:" +:+ pretty (print_id _print)) ].

(** Lines 260-271. *)
Definition PrintShotFeedbackViewSet_update (user : Z)
    (query_params : gmap string string) (pk : string)
    : Eff feedback_event Response :=
  let unanswered_print_shots :=
    filter (λ f, answered_at f = None)
      (PrintShotFeedbackViewSet_get_queryset user query_params) in
  should_credit <-
    (if decide (length unanswered_print_shots = 1%nat) then
       match first unanswered_print_shots with
       | None => eraise VAttributeError
       | Some f =>
           match int pk with
           | None => eraise VValueError
           | Some n => eret (bool_decide (feedback_id f = n))
           end
       end
     else eret false) ;;
  _ <- (if should_credit : bool then
          match first unanswered_print_shots with
          | None => eraise VAttributeError
          | Some f => eemit (credit_task user f)
          end
        else eret tt) ;;
  resp_data_ <- (_ <- eemit (EvSuperUpdate pk) ;;
                 match super_update pk with
                 | inl e => eraise e
                 | inr d => eret d
                 end) ;;
  eret (mkResponse
          (Some (JObj {[ "instance" := resp_data_;
                         "credited_dhs" :=
                           JInt (if should_credit then 2 else 0) ]}))
          None None).

(** ** The command endpoints of [PrinterViewSet] *)

(** Lines 118-119. *)
Definition current_printer_or_404 (user pk : Z) : Eff printer_event PrinterRow :=
  match head (filter (λ r, printer_id r = pk)
                (filter (λ r, printer_user r = user) Printer_with_archived)) with
  | Some printer => eret printer
  | None => eraise VHttp404
  end.

Definition call_printer (printer : PrinterRow) (c : printer_call)
    : Eff printer_event json :=
  _ <- eemit (EvPrinterCall (printer_id printer) c) ;;
  match printer_method printer c with
  | inl e => eraise e
  | inr v => eret v
  end.

(** Lines 112-116. *)
Definition send_command_response (printer : PrinterRow) (succeeded : json)
    : Eff printer_event Response :=
  _ <- eemit (EvSendStatusToWeb (printer_id printer)) ;;
  eret (mkResponse
          (Some (JObj {[ "succeeded" := succeeded;
                         "printer" := PrinterSerializer printer ]}))
          None None).

(** Lines 51-70: [cancel_print], [pause_print] and [resume_print] differ
    in the method they call only. *)
Definition PrinterViewSet_simple_command (c : printer_call) (user pk : Z)
    : Eff printer_event Response :=
  printer <- current_printer_or_404 user pk ;;
  succeeded <- call_printer printer c ;;
  send_command_response printer succeeded.

Definition PrinterViewSet_cancel_print := PrinterViewSet_simple_command cancel_print.
Definition PrinterViewSet_pause_print := PrinterViewSet_simple_command pause_print.
Definition PrinterViewSet_resume_print := PrinterViewSet_simple_command resume_print.

(** Lines 72-77. *)
Definition PrinterViewSet_mute_current_print (user : Z)
    (GET : gmap string string) (pk : Z) : Eff printer_event Response :=
  printer <- current_printer_or_404 user pk ;;
  _ <- call_printer printer
         (mute_current_print
            (bool_decide (lower (default "false" (GET !! "mute_alert")) = "true"))) ;;
  send_command_response printer (JBool true).

(** Lines 79-84. *)
Definition PrinterViewSet_acknowledge_alert (user : Z)
    (GET : gmap string string) (pk : Z) : Eff printer_event Response :=
  printer <- current_printer_or_404 user pk ;;
  _ <- call_printer printer (acknowledge_alert (GET !! "alert_overwrite")) ;;
  send_command_response printer (JBool true).

(** [d[k]] on the request data. *)
Definition getitem (d : gmap string json) (k : string) : Eff printer_event json :=
  match d !! k with
  | Some v => eret v
  | None => eraise (VKeyError k)
  end.

(** Lines 86-91. *)
Definition PrinterViewSet_send_command (user : Z) (data : gmap string json)
    (pk : Z) : Eff printer_event Response :=
  printer <- current_printer_or_404 user pk ;;
  cmd <- getitem data "cmd" ;;
  args <- getitem data "args" ;;
  _ <- call_printer printer (send_octoprint_command cmd args) ;;
  send_command_response printer (JBool true).

(** Lines 93-103; [raise_for_status] raises for a status in 400..599. *)
Definition PrinterViewSet_send_webhook_test (user pk : Z)
    : Eff printer_event Response :=
  printer <- current_printer_or_404 user pk ;;
  let body :=
    JObj {[ "token" := JStr (service_token printer); "event" := JStr "test" ]} in
  _ <- eemit (EvPost EXT_3D_GEEKS_ENDPOINT body) ;;
  match requests_post EXT_3D_GEEKS_ENDPOINT body with
  | inl e => eraise e
  | inr status =>
      if ((400 <=? status)%Z && (status <? 600)%Z)%bool
      then eraise (VHTTPError status)
      else eret (mkResponse (Some (JObj {[ "status" := JStr "okay" ]})) None None)
  end.

End Views.

(** ** A small installation for these views *)

Module Demo2.

(** A parser of plain decimal numerals, with an optional minus sign,
    standing for [int]. *)
Fixpoint digits (s : string) (acc : Z) : option Z :=
  match s with
  | EmptyString => Some acc
  | String c s' =>
      let n := nat_of_ascii c in
      if ((48 <=? n)%nat && (n <=? 57)%nat)%bool
      then digits s' (10 * acc + Z.of_nat (n - 48))
      else None
  end.

Definition int (s : string) : option Z :=
  match s with
  | EmptyString => None
  | String "-" s' => if decide (s' = "") then None else Z.opp <$> digits s' 0
  | _ => digits s 0
  end.

Definition a_print (i u : Z) (video : option string) (cancelled : option Z)
    : PrintRow :=
  {| print_id := i; print_user := u; filename := "benchy.gcode";
     video_url := video; tagged_video_url := None;
     cancelled_at := cancelled; finished_at := None;
     alert_overwrite := None |}.

Definition Print_objects : list PrintRow :=
  [ a_print 1 7 (Some "v1") None;
    a_print 2 8 (Some "v2") None;
    a_print 3 7 None None;
    a_print 4 7 (Some "v4") (Some 100);
    a_print 5 7 (Some "v5") None ].

Definition PrintShotFeedback_objects : list PrintShotFeedbackRow :=
  [ {| feedback_id := 10; feedback_print := a_print 4 7 (Some "v4") (Some 100);
       answered_at := None |};
    {| feedback_id := 11; feedback_print := a_print 5 7 (Some "v5") None;
       answered_at := Some 50 |};
    {| feedback_id := 12; feedback_print := a_print 2 8 (Some "v2") None;
       answered_at := None |} ].

Definition PrintSerializer (r : PrintRow) : json := JInt (print_id r).

Definition list_view : Z → gmap string string → view_exn + Response :=
  PrintViewSet_list Print_objects PrintShotFeedback_objects int PrintSerializer.

Definition page (start limit : string) : gmap string string :=
  {[ "start" := start; "limit" := limit ]}.

Definition Printer_with_archived : list PrinterRow :=
  [ {| printer_id := 1; printer_user := 7; service_token := "tok1" |};
    {| printer_id := 2; printer_user := 8; service_token := "tok2" |} ].

Definition PrinterSerializer (r : PrinterRow) : json := JInt (printer_id r).

(** The printers accept every call but cancelling, which fails. *)
Definition printer_method (r : PrinterRow) (c : printer_call) : view_exn + json :=
  match c with
  | cancel_print => inr (JBool false)
  | _ => inr (JBool true)
  end.

(** An update of a feedback that is rejected, and one that goes through. *)
Definition super_update (pk : string) : view_exn + json :=
  inl (VOther "ValidationError").

Definition super_update_ok (pk : string) : view_exn + json :=
  inr (JObj {[ "id" := JStr pk ]}).

Definition feedback10 : PrintShotFeedbackRow :=
  {| feedback_id := 10; feedback_print := a_print 4 7 (Some "v4") (Some 100);
     answered_at := None |}.

Definition printer1 : PrinterRow :=
  {| printer_id := 1; printer_user := 7; service_token := "tok1" |}.

(** The webhook endpoint answers every POST with a 302. *)
Definition requests_post (url : string) (body : json) : view_exn + Z := inr 302.

End Demo2.

(** * Properties *)

Section Properties.

Context {prediction : Type}.
Context (PrinterPrediction : gmap string json → option prediction).
Context (calc_normalized_p : float → prediction → option float).
Context (detective_sensitivity_default : float).
Context (upstream : string → Z → gmap string string → exn + UpstreamResponse).

Local Notation "'view'" :=
  (prediction_json PrinterPrediction calc_normalized_p
     detective_sensitivity_default upstream).
Local Notation "'sensitivity'" := (sensitivity_of detective_sensitivity_default).
Local Notation "'body'" := (loop_body PrinterPrediction calc_normalized_p).
Local Notation "'walk'" := (for_each PrinterPrediction calc_normalized_p).

(** The answer of the store to the GET of lines 186-188. *)
Definition fetch (p : Print) (request : HttpRequest) : exn + UpstreamResponse :=
  upstream (default "" (prediction_json_url p)) PREDICTION_FETCH_TIMEOUT
    (drop_none (request_validators request)).

(** The event of that GET. *)
Definition fetch_event (p : Print) (request : HttpRequest) : event prediction :=
  EvGet (default "" (prediction_json_url p)) PREDICTION_FETCH_TIMEOUT
    (drop_none (request_validators request)).

(** A frame record: a [dict] with no ['fields'] entry, or one whose
    ['fields'] is a field-set the model constructor and the engine accept. *)
Definition is_frame_record (s : float) (f : json) : bool :=
  match f with
  | JObj d =>
      match d !! "fields" with
      | None => true
      | Some (JObj kw) =>
          match PrinterPrediction kw with
          | Some pred => bool_decide (is_Some (calc_normalized_p s pred))
          | None => false
          end
      | Some _ => false
      end
  | _ => false
  end.

(** [f'] is the frame [f] with nothing but its ['fields'] entry rewritten:
    the synthesized field-set when [f] had none, its own field-set with
    ['normalized_p'] set to the engine's output otherwise. *)
Definition normalized_from (s : float) (f f' : json) : Prop :=
  ∃ d kw v,
    f = JObj d ∧ f' = JObj (<["fields" := JObj kw]> d) ∧
    kw !! "normalized_p" = Some (JFloat v) ∧
    match d !! "fields" with
    | None => kw = {["normalized_p" := JFloat 0%float]}
    | Some (JObj kw0) =>
        ∃ pred, PrinterPrediction kw0 = Some pred ∧
                calc_normalized_p s pred = Some v ∧
                kw = <["normalized_p" := JFloat v]> kw0
    | Some _ => False
    end.

(** The events the loop can add to the trace: calls of the engine with
    sensitivity [s]. *)
Definition is_calc_with (s : float) (e : event prediction) : Prop :=
  ∃ pred, e = EvCalc s pred.

(** ['fields' in raw_pred] on an element of the body. *)
Definition has_fields (f : json) : bool :=
  match f with
  | JObj d => bool_decide (is_Some (d !! "fields"))
  | _ => false
  end.

Definition is_calc (e : event prediction) : bool :=
  match e with
  | EvCalc _ _ => true
  | _ => false
  end.

Definition is_get (e : event prediction) : bool :=
  match e with
  | EvGet _ _ _ => true
  | _ => false
  end.

(** The call of the engine the loop body makes on an element: none unless
    the element is a [dict] whose ['fields'] is a [dict] the constructor
    accepts. *)
Definition engine_call (s : float) (f : json) : option (event prediction) :=
  match f with
  | JObj d =>
      match d !! "fields" with
      | Some (JObj kw) => EvCalc s <$> PrinterPrediction kw
      | _ => None
      end
  | _ => None
  end.

(** ** Unfolding the view, stage by stage *)

Lemma view_not_found queryset request pk :
  queryset !! pk = None →
  run (view queryset request pk) = (inl Http404, []).
Proof.
  intros Hq. unfold run, prediction_json, get_object_or_404, bind.
  by rewrite Hq.
Qed.

Lemma view_no_reference queryset request pk p :
  queryset !! pk = Some p →
  url_is_set (prediction_json_url p) = false →
  run (view queryset request pk) = (inr (mkResponse (Some (JArr [])) None None), []).
Proof.
  intros Hq Hu. unfold run, prediction_json, get_object_or_404, bind.
  rewrite Hq. cbn. by rewrite Hu.
Qed.

Lemma url_is_set_false (u : option string) :
  url_is_set u = false ↔ u = None ∨ u = Some "".
Proof.
  destruct u as [s|]; cbn; [|naive_solver].
  rewrite negb_false_iff, String.eqb_eq. split; [intros ->; by right | intros [|]; congruence].
Qed.

Lemma view_fetch_failed queryset request pk p e :
  queryset !! pk = Some p →
  url_is_set (prediction_json_url p) = true →
  fetch p request = inl e →
  run (view queryset request pk) = (inl e, [fetch_event p request]).
Proof.
  intros Hq Hu Hf. unfold fetch in Hf.
  unfold run, prediction_json, get_object_or_404, requests_get, bind, emit.
  rewrite Hq. cbn [ret]. rewrite Hu. cbn [negb app]. by rewrite Hf.
Qed.

Lemma view_http_error queryset request pk p r :
  queryset !! pk = Some p →
  url_is_set (prediction_json_url p) = true →
  fetch p request = inr r →
  400 ≤ status_code r < 600 →
  run (view queryset request pk)
  = (inl (HTTPError (status_code r)), [fetch_event p request]).
Proof.
  intros Hq Hu Hf Hs. unfold fetch in Hf.
  unfold run, prediction_json, get_object_or_404, requests_get,
    raise_for_status, bind, emit.
  rewrite Hq. cbn [ret]. rewrite Hu. cbn [negb app]. rewrite Hf. cbn [ret].
  replace (400 <=? status_code r) with true by (symmetry; apply Z.leb_le; lia).
  replace (status_code r <? 600) with true by (symmetry; apply Z.ltb_lt; lia).
  reflexivity.
Qed.

Lemma status_passes (r : UpstreamResponse) :
  ¬ (400 ≤ status_code r < 600) →
  ((400 <=? status_code r) && (status_code r <? 600))%bool = false.
Proof.
  intros Hs. apply andb_false_iff.
  destruct (Z.leb_spec 400 (status_code r)); [right|by left].
  apply Z.ltb_ge. lia.
Qed.

Lemma view_not_modified queryset request pk p r :
  queryset !! pk = Some p →
  url_is_set (prediction_json_url p) = true →
  fetch p request = inr r →
  status_code r = 304 →
  run (view queryset request pk)
  = (inr (mkResponse None (Some 304) (Some (drop_none (response_validators r)))),
     [fetch_event p request]).
Proof.
  intros Hq Hu Hf Hs. unfold fetch in Hf.
  unfold run, prediction_json, get_object_or_404, requests_get,
    raise_for_status, bind, emit.
  rewrite Hq. cbn [ret]. rewrite Hu. cbn [negb app]. rewrite Hf. cbn [ret].
  rewrite status_passes by lia. cbn [ret]. by rewrite Hs.
Qed.

Lemma view_fresh queryset request pk p r :
  queryset !! pk = Some p →
  url_is_set (prediction_json_url p) = true →
  fetch p request = inr r →
  ¬ (400 ≤ status_code r < 600) →
  status_code r ≠ 304 →
  run (view queryset request pk)
  = match json_body r with
    | None => (inl JSONDecodeError, [fetch_event p request; EvJson])
    | Some data =>
        match for_loop PrinterPrediction calc_normalized_p (sensitivity p) data
                [fetch_event p request; EvJson] with
        | (inl e, t) => (inl e, t)
        | (inr data', t) =>
            (inr (mkResponse (Some data') None
                    (Some (drop_none (response_validators r)))), t)
        end
    end.
Proof.
  intros Hq Hu Hf Hs Hn. unfold fetch in Hf.
  unfold run, prediction_json, get_object_or_404, requests_get,
    raise_for_status, r_json, bind, emit.
  rewrite Hq. cbn [ret]. rewrite Hu. cbn [negb app]. rewrite Hf. cbn [ret].
  rewrite status_passes by done. cbn [ret].
  apply Z.eqb_neq in Hn. rewrite Hn. cbn [app].
  destruct (json_body r) as [data|]; [|done].
  cbn [ret]. by destruct (for_loop _ _ _ _ _) as [[e|data'] t].
Qed.

(** ** The loop *)

Lemma body_missing_fields s d t :
  d !! "fields" = None →
  body s (JObj d) t
  = (inr (JObj (<["fields" := JObj {["normalized_p" := JFloat 0%float]}]> d)), t).
Proof. intros Hd. unfold loop_body. by rewrite Hd. Qed.

Lemma body_accepted s d kw pred v t :
  d !! "fields" = Some (JObj kw) →
  PrinterPrediction kw = Some pred →
  calc_normalized_p s pred = Some v →
  body s (JObj d) t
  = (inr (JObj (<["fields" := JObj (<["normalized_p" := JFloat v]> kw)]> d)),
     t ++ [EvCalc s pred]).
Proof.
  intros Hd Hp Hc.
  unfold loop_body, call_PrinterPrediction, call_calc_normalized_p, setitem,
    bind, emit.
  rewrite Hd, Hp. cbn [ret]. by rewrite Hc.
Qed.

Lemma body_rejected s d fields t :
  d !! "fields" = Some fields →
  (∀ kw, fields = JObj kw → PrinterPrediction kw = None) →
  body s (JObj d) t = (inl TypeError, t).
Proof.
  intros Hd Hrej. unfold loop_body, call_PrinterPrediction, bind.
  rewrite Hd. destruct fields as [| | | | | |kw]; try done.
  by rewrite (Hrej kw eq_refl).
Qed.

(** Whatever the element, the body returns the updated element or raises,
    and adds at most one call of the engine to the trace. *)
Lemma body_inv s f t res t' :
  body s f t = (res, t') →
  (t' = t ∨ ∃ pred, t' = t ++ [EvCalc s pred]) ∧
  ∀ f', res = inr f' → normalized_from s f f'.
Proof.
  unfold loop_body, call_PrinterPrediction, call_calc_normalized_p, setitem,
    bind, emit, ret, raise.
  destruct f as [| | | | | |d]; try (intros [= <- <-]; split; [by left|done]).
  destruct (d !! "fields") as [fields|] eqn:Hd.
  - destruct fields as [| | | | | |kw];
      try (intros [= <- <-]; split; [by left|done]).
    destruct (PrinterPrediction kw) as [pred|] eqn:Hp;
      [|intros [= <- <-]; split; [by left|done]].
    destruct (calc_normalized_p s pred) as [v|] eqn:Hc; intros [= <- <-].
    + split; [right; by exists pred|]. intros f' [= <-].
      exists d, (<["normalized_p" := JFloat v]> kw), v.
      rewrite Hd, lookup_insert_eq. split_and!; try done. by exists pred.
    + split; [right; by exists pred|done].
  - intros [= <- <-]. split; [by left|]. intros f' [= <-].
    exists d, {["normalized_p" := JFloat 0%float]}, 0%float.
    by rewrite Hd, lookup_singleton_eq.
Qed.

Lemma walk_inv s l t res t' :
  walk s l t = (res, t') →
  (∃ evs, t' = t ++ evs ∧ Forall (is_calc_with s) evs) ∧
  ∀ out, res = inr out → Forall2 (normalized_from s) l out.
Proof.
  revert t res t'. induction l as [|f l IH]; intros t res t'; cbn [for_each].
  - intros [= <- <-]. split.
    + exists []. by rewrite app_nil_r.
    + intros out [= <-]. constructor.
  - unfold bind at 1.
    destruct (body s f t) as [[e|f'] t1] eqn:Hb.
    + intros [= <- <-]. apply body_inv in Hb as [Ht _]. split; [|done].
      destruct Ht as [->|[pred ->]].
      * exists []. by rewrite app_nil_r.
      * exists [EvCalc s pred]. split; [done|]. repeat constructor. by exists pred.
    + unfold bind at 1.
      destruct (walk s l t1) as [[e|out'] t2] eqn:Hw.
      * intros [= <- <-]. apply IH in Hw as [(evs & -> & Hevs) _].
        apply body_inv in Hb as [Ht _]. split; [|done].
        destruct Ht as [->|[pred ->]]; [by exists evs|].
        exists (EvCalc s pred :: evs). rewrite <- app_assoc. split; [done|].
        constructor; [by exists pred|done].
      * intros [= <- <-]. apply IH in Hw as [(evs & -> & Hevs) Hout].
        apply body_inv in Hb as [Ht Hf]. split.
        -- destruct Ht as [->|[pred ->]]; [by exists evs|].
           exists (EvCalc s pred :: evs). rewrite <- app_assoc. split; [done|].
           constructor; [by exists pred|done].
        -- intros out [= <-]. constructor; [by apply Hf|by apply Hout].
Qed.

Lemma walk_frame_records s l t :
  forallb (is_frame_record s) l = true →
  ∃ out t', walk s l t = (inr out, t').
Proof.
  revert t. induction l as [|f l IH]; intros t; cbn [forallb for_each].
  - by exists [], t.
  - intros [Hf Hl]%andb_true_iff.
    assert (∃ f' t1, body s f t = (inr f', t1)) as (f' & t1 & Hb).
    { destruct f as [| | | | | |d]; try done. cbn in Hf.
      destruct (d !! "fields") as [fields|] eqn:Hd.
      - destruct fields as [| | | | | |kw]; try done.
        destruct (PrinterPrediction kw) as [pred|] eqn:Hp; [|done].
        apply bool_decide_eq_true in Hf as [v Hc].
        eexists _, _. by apply body_accepted.
      - eexists _, _. by apply body_missing_fields. }
    destruct (IH t1 Hl) as (out & t' & Hw).
    exists (f' :: out), t'. unfold bind. by rewrite Hb, Hw.
Qed.

Lemma walk_rejected s l t i d fields :
  l !! i = Some (JObj d) →
  d !! "fields" = Some fields →
  (∀ kw, fields = JObj kw → PrinterPrediction kw = None) →
  ∃ e t', walk s l t = (inl e, t').
Proof.
  intros Hi Hd Hrej. revert i t Hi.
  induction l as [|f l IH]; intros [|i] t Hi; try done; cbn [for_each].
  - injection Hi as ->. exists TypeError, t.
    unfold bind. by rewrite (body_rejected _ _ fields).
  - unfold bind at 1. destruct (body s f t) as [[e|f'] t1]; [by eauto|].
    destruct (IH i t1 Hi) as (e & t' & Hw).
    exists e, t'. unfold bind. by rewrite Hw.
Qed.

Lemma for_loop_trace s data t res t' :
  for_loop PrinterPrediction calc_normalized_p s data t = (res, t') →
  ∃ evs, t' = t ++ evs ∧ Forall (is_calc_with s) evs.
Proof.
  assert (∀ r0, (r0, t) = (res, t') → ∃ evs, t' = t ++ evs ∧ Forall (is_calc_with s) evs)
    as Hsame.
  { intros r0 [= _ <-]. exists []. by rewrite app_nil_r. }
  unfold for_loop, ret, raise.
  destruct data as [| | | |str|l|d]; try apply Hsame.
  - case_decide; apply Hsame.
  - unfold bind. destruct (walk s l t) as [[e|out] t1] eqn:Hw.
    + intros [= <- <-]. by apply walk_inv in Hw as [? _].
    + intros [= <- <-]. by apply walk_inv in Hw as [? _].
  - case_decide; apply Hsame.
Qed.

(** The trace of a request: empty, or the GET of the print's URL followed
    by the parse of the body and calls of the engine with the print's
    sensitivity. *)
Lemma view_trace queryset request pk res t :
  run (view queryset request pk) = (res, t) →
  t = [] ∨
  ∃ p evs, queryset !! pk = Some p ∧ t = fetch_event p request :: evs ∧
           Forall (λ e, e = EvJson ∨ is_calc_with (sensitivity p) e) evs.
Proof.
  destruct (queryset !! pk) as [p|] eqn:Hq;
    [|rewrite view_not_found by done; intros [= _ <-]; by left].
  destruct (url_is_set (prediction_json_url p)) eqn:Hu;
    [|rewrite (view_no_reference _ _ _ p) by done; intros [= _ <-]; by left].
  intros Hrun. right. exists p.
  destruct (fetch p request) as [e|r] eqn:Hf.
  { rewrite (view_fetch_failed _ _ _ p e) in Hrun by done.
    injection Hrun as _ <-. exists []. split_and!; [done|done|constructor]. }
  destruct (decide (400 ≤ status_code r < 600)) as [Hs|Hs].
  { rewrite (view_http_error _ _ _ p r) in Hrun by done.
    injection Hrun as _ <-. exists []. split_and!; [done|done|constructor]. }
  destruct (decide (status_code r = 304)) as [Hn|Hn].
  { rewrite (view_not_modified _ _ _ p r) in Hrun by done.
    injection Hrun as _ <-. exists []. split_and!; [done|done|constructor]. }
  rewrite (view_fresh _ _ _ p r) in Hrun by done.
  destruct (json_body r) as [data|].
  - destruct (for_loop _ _ _ _ _) as [res' t1] eqn:Hl.
    apply for_loop_trace in Hl as (evs & -> & Hevs).
    assert (t = fetch_event p request :: EvJson :: evs) as ->
      by (destruct res'; by injection Hrun as _ <-).
    exists (EvJson :: evs). split_and!; [done|done|].
    constructor; [by left|]. eapply Forall_impl; [done|]. by right.
  - injection Hrun as _ <-. exists [EvJson]. split_and!; [done|done|].
    repeat constructor.
Qed.

(** The engine is called at most once per element that carries
    ['fields'], and never for the others. *)
Lemma body_calls s f t res t' :
  body s f t = (res, t') →
  ∃ evs, t' = t ++ evs ∧
         (length (filter is_calc evs) ≤ if has_fields f then 1 else 0)%nat.
Proof.
  intros Hb. destruct (has_fields f) eqn:Hh.
  - apply body_inv in Hb as [[->|[pred ->]] _].
    + exists []. rewrite app_nil_r. split; [done|cbn; lia].
    + exists [EvCalc s pred]. split; [done|]. rewrite filter_cons_True by done. cbn; lia.
  - exists []. rewrite app_nil_r. split; [|cbn; lia].
    destruct f as [| | | | | |d]; try by injection Hb as _ <-.
    cbn in Hh. apply bool_decide_eq_false in Hh.
    destruct (d !! "fields") eqn:Hd; [by destruct Hh|].
    rewrite body_missing_fields in Hb by done. by injection Hb as _ <-.
Qed.

Lemma walk_calls s l t res t' :
  walk s l t = (res, t') →
  ∃ evs, t' = t ++ evs ∧
         (length (filter is_calc evs) ≤ length (filter has_fields l))%nat.
Proof.
  revert t res t'. induction l as [|f l IH]; intros t res t'; cbn [for_each].
  - intros [= _ <-]. exists []. by rewrite app_nil_r.
  - unfold bind at 1. destruct (body s f t) as [r1 t1] eqn:Hb.
    apply body_calls in Hb as (evs1 & -> & Hn1).
    assert (length (filter is_calc evs1) + length (filter has_fields l)
            ≤ length (filter has_fields (f :: l)))%nat as Hcons.
    { rewrite filter_cons. destruct (has_fields f); cbn in *;
        case_decide; cbn; try done; lia. }
    destruct r1 as [e|f'].
    + intros [= _ <-]. exists evs1. split; [done|lia].
    + unfold bind at 1. destruct (walk s l (t ++ evs1)) as [r2 t2] eqn:Hw.
      apply IH in Hw as (evs2 & -> & Hn2). intros Hres.
      assert (t' = (t ++ evs1) ++ evs2) as -> by (destruct r2; by injection Hres as _ <-).
      exists (evs1 ++ evs2). rewrite <- app_assoc. split; [done|].
      rewrite filter_app, length_app. lia.
Qed.

(** ** The header dicts *)

Lemma request_validators_lookup request k :
  drop_none (request_validators request) !! k
  = if decide (k = "If-Modified-Since")
    then ci_get "If-Modified-Since" (request_headers request)
    else if decide (k = "If-None-Match")
    then ci_get "If-None-Match" (request_headers request)
    else None.
Proof.
  unfold drop_none, request_validators. rewrite lookup_omap.
  rewrite lookup_insert. repeat case_decide; subst; try done.
  all: rewrite lookup_singleton; case_decide; subst; done.
Qed.

Lemma response_validators_lookup r k :
  drop_none (response_validators r) !! k
  = if decide (k = "Last-Modified") then ci_get "Last-Modified" (headers r)
    else if decide (k = "Etag") then ci_get "Etag" (headers r)
    else None.
Proof.
  unfold drop_none, response_validators. rewrite lookup_omap.
  rewrite lookup_insert. repeat case_decide; subst; try done.
  all: rewrite lookup_singleton; case_decide; subst; done.
Qed.

(** C5 -- a print whose prediction URL is absent ([None], or the empty
    string, which the test [not p.prediction_json_url] does not tell
    apart) is answered at once with the empty sequence, status 200, and
    the trace of the request is empty: no GET was issued. *)
Theorem no_reference_empty_sequence_no_network queryset request pk p :
  queryset !! pk = Some p →
  prediction_json_url p = None ∨ prediction_json_url p = Some "" →
  run (view queryset request pk)
  = (inr {| resp_data := Some (JArr []); resp_status := 200; resp_headers := ∅ |}, []).
Proof.
  intros Hq Hu. apply url_is_set_false in Hu.
  by apply view_no_reference with p.
Qed.

(** C1 -- when the store answers 200 with a JSON array of N frame records
    (records with no field-set included), the view answers 200 with an
    array of exactly N records; the record at each position is the
    upstream record of that position with only its ['fields'] entry
    rewritten, and that entry holds a ['normalized_p'] key.  Positions
    correspond one to one, so no frame is reordered, merged or dropped. *)
Theorem fresh_frames_normalized_in_order queryset request pk p r frames :
  queryset !! pk = Some p →
  url_is_set (prediction_json_url p) = true →
  fetch p request = inr r →
  status_code r = 200 →
  json_body r = Some (JArr frames) →
  forallb (is_frame_record (sensitivity p)) frames = true →
  ∃ resp out t,
    run (view queryset request pk) = (inr resp, t) ∧
    resp_status resp = 200 ∧
    resp_data resp = Some (JArr out) ∧
    length out = length frames ∧
    Forall2 (normalized_from (sensitivity p)) frames out ∧
    ∀ i f', out !! i = Some f' →
      ∃ d kw, f' = JObj d ∧ d !! "fields" = Some (JObj kw) ∧
              is_Some (kw !! "normalized_p").
Proof.
  intros Hq Hu Hf Hs Hb Hfr.
  destruct (walk_frame_records (sensitivity p) frames
              [fetch_event p request; EvJson] Hfr) as (out & t & Hw).
  pose proof Hw as [_ Hall]%walk_inv. specialize (Hall out eq_refl).
  exists (mkResponse (Some (JArr out)) None
            (Some (drop_none (response_validators r)))), out, t.
  split_and!; try done.
  - rewrite (view_fresh _ _ _ p r) by (done || lia).
    rewrite Hb. unfold for_loop, bind. by rewrite Hw.
  - symmetry. by eapply Forall2_length.
  - intros i f' Hi.
    destruct (Forall2_lookup_r _ _ _ _ _ Hall Hi) as (f & _ & Hn).
    destruct Hn as (d & kw & v & -> & -> & Hkw & _).
    exists (<["fields" := JObj kw]> d), kw.
    rewrite lookup_insert_eq. by eauto.
Qed.

(** C3 -- when the store answers 304 the view answers 304 with no body;
    the trace of the request is the GET alone, so the body was never
    parsed and the engine never called. *)
Theorem not_modified_passes_through queryset request pk p r :
  queryset !! pk = Some p →
  url_is_set (prediction_json_url p) = true →
  fetch p request = inr r →
  status_code r = 304 →
  ∃ resp t,
    run (view queryset request pk) = (inr resp, t) ∧
    resp_status resp = 304 ∧
    resp_data resp = None ∧
    t = [fetch_event p request] ∧
    (EvJson ∉ t) ∧
    (∀ s pred, EvCalc s pred ∉ t).
Proof.
  intros Hq Hu Hf Hs. eexists _, _.
  split; [by apply (view_not_modified _ _ _ p r)|].
  split_and!; try done.
  - by intros [?|[]%elem_of_nil]%elem_of_cons.
  - by intros s pred [?|[]%elem_of_nil]%elem_of_cons.
Qed.

(** C9 -- whenever the store answered and the view returns a response
    (the 304 and the 200 outcome alike), the response carries
    [Last-Modified] exactly when the upstream response did, with the same
    value, and likewise [Etag]; it carries no other header. *)
Theorem validators_flow_to_client queryset request pk p r resp t :
  queryset !! pk = Some p →
  url_is_set (prediction_json_url p) = true →
  fetch p request = inr r →
  run (view queryset request pk) = (inr resp, t) →
  resp_headers resp !! "Last-Modified" = ci_get "Last-Modified" (headers r) ∧
  resp_headers resp !! "Etag" = ci_get "Etag" (headers r) ∧
  (∀ k, k ≠ "Last-Modified" → k ≠ "Etag" → resp_headers resp !! k = None) ∧
  (resp_status resp = 304 ∨ resp_status resp = 200).
Proof.
  intros Hq Hu Hf Hrun.
  assert (resp_headers resp = drop_none (response_validators r) ∧
          (resp_status resp = 304 ∨ resp_status resp = 200)) as [Hh Hst].
  { destruct (decide (400 ≤ status_code r < 600)) as [Hs|Hs].
    { by rewrite (view_http_error _ _ _ p r) in Hrun. }
    destruct (decide (status_code r = 304)) as [Hn|Hn].
    { rewrite (view_not_modified _ _ _ p r) in Hrun by done.
      injection Hrun as <- _. split; [done|by left]. }
    rewrite (view_fresh _ _ _ p r) in Hrun by done.
    destruct (json_body r) as [data|]; [|done].
    destruct (for_loop _ _ _ _ _) as [[e|data'] t1]; [done|].
    injection Hrun as <- _. split; [done|by right]. }
  rewrite Hh, !response_validators_lookup. split_and!; try done.
  intros k Hk1 Hk2. rewrite response_validators_lookup.
  by repeat case_decide.
Qed.


(** C2, as amended -- every GET the view issues carries
    [If-Modified-Since] exactly when the client sent it, with the client's
    value, and likewise [If-None-Match]; it carries no other header, and
    every value it carries is the one the client supplied under that name.
    An absent validator is thus left out, never replaced by a placeholder;
    a validator the client sent with an empty value is present, and is
    forwarded as it is. *)
Theorem upstream_get_carries_client_validators
    queryset request pk res t url timeout hdrs :
  run (view queryset request pk) = (res, t) →
  EvGet url timeout hdrs ∈ t →
  hdrs !! "If-Modified-Since"
    = ci_get "If-Modified-Since" (request_headers request) ∧
  hdrs !! "If-None-Match"
    = ci_get "If-None-Match" (request_headers request) ∧
  (∀ k, k ≠ "If-Modified-Since" → k ≠ "If-None-Match" → hdrs !! k = None) ∧
  (∀ k v, hdrs !! k = Some v → ci_get k (request_headers request) = Some v).
Proof.
  intros Hrun Hin.
  assert (hdrs = drop_none (request_validators request)) as ->.
  { apply view_trace in Hrun as [->|(p & evs & _ & -> & Hevs)].
    { by apply elem_of_nil in Hin. }
    apply elem_of_cons in Hin as [Hhd|Htl]; [by injection Hhd|].
    rewrite Forall_forall in Hevs.
    by destruct (Hevs _ Htl) as [?|[pred ?]]. }
  rewrite !request_validators_lookup. split_and!; try done.
  - intros k Hk1 Hk2. rewrite request_validators_lookup. by repeat case_decide.
  - intros k v. rewrite request_validators_lookup.
    repeat case_decide; by subst.
Qed.

(** C4 -- a record with no ['fields'] entry passes through the loop body
    without raising and without a call of the engine (the trace is left as
    it was), and comes out with the synthesized field-set
    [{'normalized_p': 0.0}].  In a request whose upstream body is an array
    holding that record at position [i], the engine is called at most once
    per record that does carry ['fields'], and any response returned holds
    the record, with the synthesized field-set, at position [i]. *)
Theorem missing_fields_get_default
    queryset request pk p r frames i d res t :
  d !! "fields" = None →
  queryset !! pk = Some p →
  url_is_set (prediction_json_url p) = true →
  fetch p request = inr r →
  status_code r ≠ 304 →
  json_body r = Some (JArr frames) →
  frames !! i = Some (JObj d) →
  run (view queryset request pk) = (res, t) →
  (∀ s t0, body s (JObj d) t0
     = (inr (JObj (<["fields" := JObj {["normalized_p" := JFloat 0%float]}]> d)),
        t0)) ∧
  (length (filter is_calc t) ≤ length (filter has_fields frames))%nat ∧
  (∀ resp, res = inr resp →
     ∃ out, resp_data resp = Some (JArr out) ∧
            out !! i
            = Some (JObj (<["fields" :=
                             JObj {["normalized_p" := JFloat 0%float]}]> d))).
Proof.
  intros Hd Hq Hu Hf Hn Hb Hi Hrun.
  split; [intros s t0; by apply body_missing_fields|].
  destruct (decide (400 ≤ status_code r < 600)) as [Hs|Hs].
  { rewrite (view_http_error _ _ _ p r) in Hrun by done.
    injection Hrun as <- <-. split; [|done].
    unfold fetch_event. rewrite filter_cons_False, filter_nil by (cbn; tauto).
    cbn; lia. }
  rewrite (view_fresh _ _ _ p r) in Hrun by done.
  rewrite Hb in Hrun. unfold for_loop, bind in Hrun.
  destruct (walk _ _ _) as [r1 t1] eqn:Hw.
  pose proof Hw as (evs & -> & Hcalls)%walk_calls.
  assert (t = [fetch_event p request; EvJson] ++ evs) as ->
    by (destruct r1; by injection Hrun as _ <-).
  split; [done|].
  intros resp ->. destruct r1 as [e|out]; [done|]. injection Hrun as <-.
  exists out. split; [done|].
  apply walk_inv in Hw as [_ Hall]. specialize (Hall out eq_refl).
  destruct (Forall2_lookup_l _ _ _ _ _ Hall Hi) as (f' & Ho & Hnf).
  destruct Hnf as (d' & kw & v & [= <-] & -> & _ & Hkw).
  rewrite Hd in Hkw. by rewrite Ho, Hkw.
Qed.

(** C6, as amended -- when the GET itself fails (a timeout, a connection
    error), or the store answers with a status in 400..599, the request
    fails with that very error: the view returns no response, hence no
    body, partial or whole.  The trace is the one GET, issued with the
    timeout 20: nothing is retried, parsed or normalized. *)
Theorem fetch_failure_aborts_request queryset request pk p e :
  queryset !! pk = Some p →
  url_is_set (prediction_json_url p) = true →
  fetch p request = inl e ∨
    (∃ r, fetch p request = inr r ∧ 400 ≤ status_code r < 600 ∧
          e = HTTPError (status_code r)) →
  run (view queryset request pk)
  = (inl e, [EvGet (default "" (prediction_json_url p)) 20
               (drop_none (request_validators request))]).
Proof.
  intros Hq Hu [Hf|(r & Hf & Hs & ->)].
  - by apply view_fetch_failed.
  - by apply view_http_error.
Qed.

(** C8 -- every call of the engine made for a request passes, as
    sensitivity, the [detective_sensitivity] of the printer of the print
    when it has one, and the default of the field when it has none. *)
Theorem engine_gets_printer_sensitivity queryset request pk p res t s pred :
  queryset !! pk = Some p →
  run (view queryset request pk) = (res, t) →
  EvCalc s pred ∈ t →
  s = match printer p with
      | Some pr => detective_sensitivity pr
      | None => detective_sensitivity_default
      end.
Proof.
  intros Hq Hrun Hin.
  apply view_trace in Hrun as [->|(p' & evs & Hq' & -> & Hevs)].
  { by apply elem_of_nil in Hin. }
  assert (p' = p) as -> by congruence.
  apply elem_of_cons in Hin as [Hhd|Htl]; [done|].
  rewrite Forall_forall in Hevs.
  destruct (Hevs _ Htl) as [?|[pred' Heq]]; [done|].
  by injection Heq as -> _.
Qed.

(** C10 -- a record whose ['fields'] entry is present but is not a
    field-set the model constructor accepts (not a [dict], or a [dict]
    the constructor rejects) makes the loop body raise [TypeError]: it
    does not get the 0.0 default.  A request whose upstream body is an
    array holding such a record fails with a propagated error. *)
Theorem present_but_malformed_fields_fail
    queryset request pk p r frames i d fields :
  queryset !! pk = Some p →
  url_is_set (prediction_json_url p) = true →
  fetch p request = inr r →
  status_code r ≠ 304 →
  json_body r = Some (JArr frames) →
  frames !! i = Some (JObj d) →
  d !! "fields" = Some fields →
  (∀ kw, fields = JObj kw → PrinterPrediction kw = None) →
  (∀ s t, body s (JObj d) t = (inl TypeError, t)) ∧
  ∃ e t, run (view queryset request pk) = (inl e, t).
Proof.
  intros Hq Hu Hf Hn Hb Hi Hd Hrej.
  split; [intros s t; by apply (body_rejected _ _ fields)|].
  destruct (decide (400 ≤ status_code r < 600)) as [Hs|Hs].
  { eexists _, _. by apply (view_http_error _ _ _ p r). }
  rewrite (view_fresh _ _ _ p r) by done. rewrite Hb.
  destruct (walk_rejected (sensitivity p) frames
              [fetch_event p request; EvJson] i d fields Hi Hd Hrej)
    as (e & t & Hw).
  exists e, t. unfold for_loop, bind. by rewrite Hw.
Qed.

(** ** Further properties of the view *)

(** The loop body adds to the trace exactly the engine call of its
    element. *)
Lemma body_engine_call s f t res t' :
  body s f t = (res, t') →
  t' = t ++ option_list (engine_call s f).
Proof.
  unfold loop_body, call_PrinterPrediction, call_calc_normalized_p, setitem,
    bind, emit, ret, raise, engine_call.
  destruct f as [| | | | | |d];
    try (intros [= _ <-]; by rewrite app_nil_r).
  destruct (d !! "fields") as [fields|];
    [|intros [= _ <-]; by rewrite app_nil_r].
  destruct fields as [| | | | | |kw];
    try (intros [= _ <-]; by rewrite app_nil_r).
  destruct (PrinterPrediction kw) as [pred|];
    [|intros [= _ <-]; by rewrite app_nil_r].
  cbn. by destruct (calc_normalized_p s pred); intros [= _ <-].
Qed.

Lemma walk_engine_calls s l t out t' :
  walk s l t = (inr out, t') →
  t' = t ++ omap (engine_call s) l.
Proof.
  revert t out t'. induction l as [|f l IH]; intros t out t'; cbn [for_each].
  - intros [= _ <-]. by rewrite app_nil_r.
  - unfold bind at 1. destruct (body s f t) as [[e|f'] t1] eqn:Hb; [done|].
    unfold bind at 1. destruct (walk s l t1) as [[e|out'] t2] eqn:Hw; [done|].
    intros [= _ <-]. apply body_engine_call in Hb as ->. apply IH in Hw as ->.
    rewrite <- app_assoc. f_equal. cbn [omap list_omap].
    by destruct (engine_call s f).
Qed.

(** Frames after the first one on which the body raises are never
    looked at. *)
Lemma walk_stops_at_failure s good bad rest t e t' :
  walk s (good ++ [bad]) t = (inl e, t') →
  walk s (good ++ bad :: rest) t = (inl e, t').
Proof.
  revert t. induction good as [|f good IH]; intros t; cbn [app for_each].
  - unfold bind. destruct (body s bad t) as [[e1|f'] t1]; [done|].
    cbn [for_each]. unfold ret. done.
  - unfold bind. destruct (body s f t) as [[e1|f'] t1]; [done|].
    destruct (walk s (good ++ [bad]) t1) as [[e1|o1] t2] eqn:Hw; [|done].
    intros [= <- <-]. by rewrite (IH _ Hw).
Qed.

(** A GET is issued exactly when the print is found and has a prediction
    URL, and then exactly once, whatever the outcome of the request: to
    that URL, with the timeout 20 and the client's validators. *)
Theorem one_get_per_request queryset request pk :
  filter is_get (run (view queryset request pk)).2
  = match queryset !! pk with
    | Some p =>
        if url_is_set (prediction_json_url p)
        then [EvGet (default "" (prediction_json_url p)) 20
                (drop_none (request_validators request))]
        else []
    | None => []
    end.
Proof.
  destruct (run (view queryset request pk)) as [res t] eqn:Hrun. cbn [snd].
  pose proof Hrun as Htr%view_trace.
  destruct (queryset !! pk) as [p|] eqn:Hq.
  - destruct (url_is_set (prediction_json_url p)) eqn:Hu.
    + destruct Htr as [->|(p' & evs & Hq' & -> & Hevs)].
      { destruct (fetch p request) as [e|r] eqn:Hf.
        { by rewrite (view_fetch_failed _ _ _ p e) in Hrun. }
        destruct (decide (400 ≤ status_code r < 600)).
        { by rewrite (view_http_error _ _ _ p r) in Hrun. }
        destruct (decide (status_code r = 304)).
        { by rewrite (view_not_modified _ _ _ p r) in Hrun. }
        rewrite (view_fresh _ _ _ p r) in Hrun by done.
        destruct (json_body r); [|done].
        destruct (for_loop _ _ _ _ _) as [[?|?] t1] eqn:Hl;
          apply for_loop_trace in Hl as (evs & -> & _); done. }
      injection Hq' as ->. unfold fetch_event.
      rewrite filter_cons_True by done. f_equal. clear Hrun.
      induction Hevs as [|e evs [->|[pred ->]] _ IH]; [done|..];
        (rewrite filter_cons_False by (cbn; tauto)); exact IH.
    + rewrite (view_no_reference _ _ _ p) in Hrun by done.
      by injection Hrun as _ <-.
  - rewrite view_not_found in Hrun by done. by injection Hrun as _ <-.
Qed.

(** When the body of the upstream answer is not JSON, the request fails
    with the decoding error; the engine is never called. *)
Theorem undecodable_body_fails queryset request pk p r :
  queryset !! pk = Some p →
  url_is_set (prediction_json_url p) = true →
  fetch p request = inr r →
  ¬ (400 ≤ status_code r < 600) →
  status_code r ≠ 304 →
  json_body r = None →
  run (view queryset request pk)
  = (inl JSONDecodeError, [fetch_event p request; EvJson]).
Proof.
  intros Hq Hu Hf Hs Hn Hb.
  rewrite (view_fresh _ _ _ p r) by done. by rewrite Hb.
Qed.

(** When the body is JSON but not an array: the empty object and the
    empty string are answered back unchanged with status 200; any other
    value (a number, a boolean, null, a non-empty object or string) makes
    the request fail with [TypeError].  The engine is never called. *)
Theorem body_that_is_no_array queryset request pk p r data :
  queryset !! pk = Some p →
  url_is_set (prediction_json_url p) = true →
  fetch p request = inr r →
  ¬ (400 ≤ status_code r < 600) →
  status_code r ≠ 304 →
  json_body r = Some data →
  (∀ l, data ≠ JArr l) →
  (data = JObj ∅ ∨ data = JStr "" →
   run (view queryset request pk)
   = (inr {| resp_data := Some data; resp_status := 200;
             resp_headers := drop_none (response_validators r) |},
      [fetch_event p request; EvJson])) ∧
  (data ≠ JObj ∅ → data ≠ JStr "" →
   run (view queryset request pk)
   = (inl TypeError, [fetch_event p request; EvJson])).
Proof.
  intros Hq Hu Hf Hs Hn Hb Harr.
  rewrite (view_fresh _ _ _ p r) by done. rewrite Hb.
  unfold for_loop, ret, raise. split.
  - intros [->| ->]; [|done]. by rewrite map_size_empty.
  - intros Hobj Hstr. destruct data as [| | | |str|l|d]; try done.
    + case_decide; [congruence|done].
    + by destruct (Harr l).
    + case_decide as Hsz; [|done].
      apply map_size_empty_iff in Hsz. congruence.
Qed.

(** On a body of frame records the engine is called once for each record
    that carries ['fields'], in the order of the frames, on the prediction
    built from that record; nothing else happens after the GET and the
    parse. *)
Theorem engine_called_once_per_frame_in_order queryset request pk p r frames :
  queryset !! pk = Some p →
  url_is_set (prediction_json_url p) = true →
  fetch p request = inr r →
  ¬ (400 ≤ status_code r < 600) →
  status_code r ≠ 304 →
  json_body r = Some (JArr frames) →
  forallb (is_frame_record (sensitivity p)) frames = true →
  ∃ resp,
    run (view queryset request pk)
    = (inr resp,
       fetch_event p request :: EvJson
         :: omap (engine_call (sensitivity p)) frames).
Proof.
  intros Hq Hu Hf Hs Hn Hb Hfr.
  destruct (walk_frame_records (sensitivity p) frames
              [fetch_event p request; EvJson] Hfr) as (out & t & Hw).
  rewrite (view_fresh _ _ _ p r) by done. rewrite Hb.
  unfold for_loop, bind. rewrite Hw.
  apply walk_engine_calls in Hw as ->. by eexists.
Qed.

(** The first frame on which the loop body raises decides the outcome:
    the request fails as it would if the body ended with that frame, and
    the frames after it are never looked at. *)
Theorem first_bad_frame_aborts queryset request pk p r good bad rest e t :
  queryset !! pk = Some p →
  url_is_set (prediction_json_url p) = true →
  fetch p request = inr r →
  ¬ (400 ≤ status_code r < 600) →
  status_code r ≠ 304 →
  json_body r = Some (JArr (good ++ bad :: rest)) →
  walk (sensitivity p) (good ++ [bad]) [fetch_event p request; EvJson]
  = (inl e, t) →
  run (view queryset request pk) = (inl e, t).
Proof.
  intros Hq Hu Hf Hs Hn Hb Hw.
  rewrite (view_fresh _ _ _ p r) by done. rewrite Hb.
  unfold for_loop, bind. by rewrite (walk_stops_at_failure _ _ _ rest _ _ _ Hw).
Qed.

(** In a returned body nothing but ['fields'] is touched in a frame, and
    nothing but ['normalized_p'] in its field-set; ['normalized_p'] is the
    output of the engine at the sensitivity of the print, whether or not
    the upstream record carried a value of its own there. *)
Theorem only_normalized_p_is_rewritten
    queryset request pk p r frames resp t i d :
  queryset !! pk = Some p →
  url_is_set (prediction_json_url p) = true →
  fetch p request = inr r →
  status_code r ≠ 304 →
  json_body r = Some (JArr frames) →
  run (view queryset request pk) = (inr resp, t) →
  frames !! i = Some (JObj d) →
  ∃ out d',
    resp_data resp = Some (JArr out) ∧
    out !! i = Some (JObj d') ∧
    (∀ k, k ≠ "fields" → d' !! k = d !! k) ∧
    ∀ kw, d !! "fields" = Some (JObj kw) →
      ∃ kw' pred v,
        d' !! "fields" = Some (JObj kw') ∧
        (∀ k, k ≠ "normalized_p" → kw' !! k = kw !! k) ∧
        PrinterPrediction kw = Some pred ∧
        calc_normalized_p (sensitivity p) pred = Some v ∧
        kw' !! "normalized_p" = Some (JFloat v).
Proof.
  intros Hq Hu Hf Hn Hb Hrun Hi.
  destruct (decide (400 ≤ status_code r < 600)) as [Hs|Hs].
  { by rewrite (view_http_error _ _ _ p r) in Hrun. }
  rewrite (view_fresh _ _ _ p r) in Hrun by done.
  rewrite Hb in Hrun. unfold for_loop, bind in Hrun.
  destruct (walk _ _ _) as [[e|out] t1] eqn:Hw; [done|].
  injection Hrun as <- _.
  apply walk_inv in Hw as [_ Hall]. specialize (Hall out eq_refl).
  destruct (Forall2_lookup_l _ _ _ _ _ Hall Hi) as (f' & Ho & Hnf).
  destruct Hnf as (d0 & kw' & v & [= <-] & -> & Hv & Hkw).
  exists out, (<["fields" := JObj kw']> d). split_and!; try done.
  - intros k Hk. by rewrite lookup_insert_ne.
  - intros kw Hfields. rewrite Hfields in Hkw.
    destruct Hkw as (pred & Hp & Hc & ->).
    exists (<["normalized_p" := JFloat v]> kw), pred, v.
    rewrite !lookup_insert_eq. split_and!; try done.
    intros k Hk. by rewrite lookup_insert_ne.
Qed.

(** A returned response has status 304 and no body exactly when the
    upstream status was 304; otherwise it has status 200 and a body,
    whatever the upstream status was. *)
Theorem response_status_is_304_or_200 queryset request pk p r resp t :
  queryset !! pk = Some p →
  url_is_set (prediction_json_url p) = true →
  fetch p request = inr r →
  run (view queryset request pk) = (inr resp, t) →
  if decide (status_code r = 304)
  then resp_status resp = 304 ∧ resp_data resp = None
  else resp_status resp = 200 ∧ is_Some (resp_data resp).
Proof.
  intros Hq Hu Hf Hrun.
  destruct (decide (400 ≤ status_code r < 600)) as [Hs|Hs].
  { by rewrite (view_http_error _ _ _ p r) in Hrun. }
  case_decide as Hn.
  - rewrite (view_not_modified _ _ _ p r) in Hrun by done.
    by injection Hrun as <- _.
  - rewrite (view_fresh _ _ _ p r) in Hrun by done.
    destruct (json_body r) as [data|]; [|done].
    destruct (for_loop _ _ _ _ _) as [[e|data'] t1]; [done|].
    injection Hrun as <- _. split; [done|by eexists].
Qed.

End Properties.

Lemma no_reference_empty_sequence_no_network_witness :
  run (Demo.view (inr Demo.fresh) Demo.queryset Demo.no_validators 1)
  = (inr {| resp_data := Some (JArr []); resp_status := 200; resp_headers := ∅ |}, []).
Proof.
  apply (no_reference_empty_sequence_no_network _ _ _ _ _ _ _ Demo.print1).
  - reflexivity.
  - left; reflexivity.
Defined.

Lemma fresh_frames_normalized_in_order_witness :
  ∃ resp out t,
    run (Demo.view (inr Demo.fresh) Demo.queryset Demo.no_validators 2)
    = (inr resp, t) ∧
    resp_status resp = 200 ∧ resp_data resp = Some (JArr out) ∧
    length out = 2%nat.
Proof.
  destruct (fresh_frames_normalized_in_order
              Demo.PrinterPrediction Demo.calc_normalized_p
              Demo.detective_sensitivity_default (Demo.store (inr Demo.fresh))
              Demo.queryset Demo.no_validators 2 Demo.print2 Demo.fresh
              Demo.frames)
    as (resp & out & t & Hrun & Hst & Hdata & Hlen & _).
  - reflexivity.
  - reflexivity.
  - reflexivity.
  - reflexivity.
  - reflexivity.
  - vm_compute. reflexivity.
  - exists resp, out, t. split_and!; assumption.
Defined.

Lemma not_modified_passes_through_witness :
  ∃ resp t,
    run (Demo.view (inr Demo.not_modified) Demo.queryset Demo.conditional 2)
    = (inr resp, t) ∧
    resp_status resp = 304 ∧ resp_data resp = None.
Proof.
  destruct (not_modified_passes_through
              Demo.PrinterPrediction Demo.calc_normalized_p
              Demo.detective_sensitivity_default
              (Demo.store (inr Demo.not_modified))
              Demo.queryset Demo.conditional 2 Demo.print2 Demo.not_modified)
    as (resp & t & Hrun & Hst & Hdata & _).
  - reflexivity.
  - reflexivity.
  - reflexivity.
  - reflexivity.
  - exists resp, t. split_and!; assumption.
Defined.

Lemma validators_flow_to_client_witness :
  ∃ resp t,
    run (Demo.view (inr Demo.not_modified) Demo.queryset Demo.conditional 2)
    = (inr resp, t) ∧
    resp_headers resp !! "Etag" = Some "abc" ∧
    resp_headers resp !! "Last-Modified" = None.
Proof.
  eexists _, _. split; [reflexivity|].
  destruct (validators_flow_to_client
              Demo.PrinterPrediction Demo.calc_normalized_p
              Demo.detective_sensitivity_default
              (Demo.store (inr Demo.not_modified))
              Demo.queryset Demo.conditional 2 Demo.print2 Demo.not_modified
              _ _ eq_refl eq_refl eq_refl eq_refl)
    as (Hlm & Hetag & _).
  split; [exact Hetag | exact Hlm].
Defined.

(** At this request the client sent [If-None-Match] with an empty value;
    the GET carries the header, with that empty value. *)
Lemma empty_validator_is_forwarded :
  ∃ resp,
    run (Demo.view (inr Demo.not_modified) Demo.queryset Demo.empty_validator 2)
    = (inr resp,
       [EvGet "https://store/p2.json" 20 {[ "If-None-Match" := "" ]}]) ∧
    ({[ "If-None-Match" := "" ]} : gmap string string) !! "If-None-Match"
    = Some "".
Proof. eexists. split; vm_compute; reflexivity. Qed.

Lemma upstream_get_carries_client_validators_witness :
  drop_none (request_validators Demo.conditional) !! "If-None-Match"
  = Some "abc" ∧
  drop_none (request_validators Demo.conditional) !! "If-Modified-Since"
  = None.
Proof.
  destruct (upstream_get_carries_client_validators
              Demo.PrinterPrediction Demo.calc_normalized_p
              Demo.detective_sensitivity_default
              (Demo.store (inr Demo.not_modified))
              Demo.queryset Demo.conditional 2 _ _
              "https://store/p2.json" 20
              (drop_none (request_validators Demo.conditional)) eq_refl)
    as (Hims & Hinm & _).
  - apply list_elem_of_here.
  - split; [exact Hinm | exact Hims].
Defined.

Lemma missing_fields_get_default_witness :
  ∃ resp t out,
    run (Demo.view (inr Demo.fresh) Demo.queryset Demo.no_validators 2)
    = (inr resp, t) ∧
    resp_data resp = Some (JArr out) ∧
    out !! 1%nat
    = Some (JObj {[ "fields" := JObj {[ "normalized_p" := JFloat 0%float ]} ]}).
Proof.
  destruct (run (Demo.view (inr Demo.fresh) Demo.queryset Demo.no_validators 2))
    as [res t] eqn:Hrun.
  destruct (missing_fields_get_default
              Demo.PrinterPrediction Demo.calc_normalized_p
              Demo.detective_sensitivity_default (Demo.store (inr Demo.fresh))
              Demo.queryset Demo.no_validators 2 Demo.print2 Demo.fresh
              Demo.frames 1%nat ∅ res t)
    as (_ & _ & Hresp).
  - reflexivity.
  - reflexivity.
  - reflexivity.
  - reflexivity.
  - discriminate.
  - reflexivity.
  - reflexivity.
  - exact Hrun.
  - vm_compute in Hrun. injection Hrun as <- <-.
    destruct (Hresp _ eq_refl) as (out & Hdata & Hout).
    eexists _, _, out. split; [reflexivity|]. split; [exact Hdata|exact Hout].
Defined.

(** At this request the store answers 300, neither 2xx nor 304, with a
    JSON array as body; the view answers 200 with the two frames. *)
Lemma status_300_is_served :
  status_code Demo.multiple_choices = 300 ∧
  ∃ resp out t,
    run (Demo.view (inr Demo.multiple_choices) Demo.queryset Demo.no_validators 2)
    = (inr resp, t) ∧
    resp_status resp = 200 ∧
    resp_data resp = Some (JArr out) ∧
    length out = 2%nat.
Proof.
  split; [reflexivity|].
  destruct (run (Demo.view (inr Demo.multiple_choices) Demo.queryset
                   Demo.no_validators 2)) as [res t] eqn:Hrun.
  vm_compute in Hrun. injection Hrun as <- <-.
  eexists _, _, _. split; [reflexivity|]. split_and!; reflexivity.
Qed.

Lemma fetch_failure_aborts_request_witness :
  run (Demo.view (inl Timeout) Demo.queryset Demo.no_validators 2)
  = (inl Timeout, [EvGet "https://store/p2.json" 20 ∅]) ∧
  run (Demo.view (inr Demo.unavailable) Demo.queryset Demo.no_validators 2)
  = (inl (HTTPError 503), [EvGet "https://store/p2.json" 20 ∅]).
Proof.
  split.
  - apply (fetch_failure_aborts_request
             Demo.PrinterPrediction Demo.calc_normalized_p
             Demo.detective_sensitivity_default (Demo.store (inl Timeout))
             Demo.queryset Demo.no_validators 2 Demo.print2 Timeout).
    + reflexivity.
    + reflexivity.
    + left; reflexivity.
  - apply (fetch_failure_aborts_request
             Demo.PrinterPrediction Demo.calc_normalized_p
             Demo.detective_sensitivity_default
             (Demo.store (inr Demo.unavailable))
             Demo.queryset Demo.no_validators 2 Demo.print2 (HTTPError 503)).
    + reflexivity.
    + reflexivity.
    + right. exists Demo.unavailable. cbn. split_and!; [reflexivity|lia|lia|reflexivity].
Defined.

Lemma engine_gets_printer_sensitivity_witness :
  ∃ res t,
    run (Demo.view (inr Demo.fresh) Demo.queryset Demo.no_validators 2) = (res, t) ∧
    EvCalc 2%float ({[ "p" := JFloat 0.25%float ]} : gmap string json) ∈ t ∧
    2%float = detective_sensitivity Demo.the_printer.
Proof.
  destruct (run (Demo.view (inr Demo.fresh) Demo.queryset Demo.no_validators 2))
    as [res t] eqn:Hrun.
  assert (EvCalc 2%float ({[ "p" := JFloat 0.25%float ]} : gmap string json) ∈ t)
    as Hin.
  { vm_compute in Hrun. injection Hrun as _ <-. vm_compute.
    do 2 apply list_elem_of_further. apply list_elem_of_here. }
  exists res, t. split; [reflexivity|]. split; [exact Hin|].
  exact (engine_gets_printer_sensitivity
           Demo.PrinterPrediction Demo.calc_normalized_p
           Demo.detective_sensitivity_default (Demo.store (inr Demo.fresh))
           Demo.queryset Demo.no_validators 2 Demo.print2 res t _ _
           eq_refl Hrun Hin).
Defined.

Lemma present_but_malformed_fields_fail_witness :
  ∃ e t,
    run (Demo.view (inr Demo.rotten) Demo.queryset Demo.no_validators 2)
    = (inl e, t).
Proof.
  refine (proj2 (present_but_malformed_fields_fail
                   Demo.PrinterPrediction Demo.calc_normalized_p
                   Demo.detective_sensitivity_default
                   (Demo.store (inr Demo.rotten))
                   Demo.queryset Demo.no_validators 2 Demo.print2 Demo.rotten
                   [JObj ∅; JObj {[ "fields" := JNull ]}] 1%nat
                   {[ "fields" := JNull ]} JNull
                   eq_refl eq_refl eq_refl _ eq_refl eq_refl eq_refl _)).
  - discriminate.
  - intros kw Hkw. discriminate Hkw.
Defined.

Lemma undecodable_body_fails_witness :
  run (Demo.view (inr Demo.garbled) Demo.queryset Demo.no_validators 2)
  = (inl JSONDecodeError, [EvGet "https://store/p2.json" 20 ∅; EvJson]).
Proof.
  apply (undecodable_body_fails
           Demo.PrinterPrediction Demo.calc_normalized_p
           Demo.detective_sensitivity_default (Demo.store (inr Demo.garbled))
           Demo.queryset Demo.no_validators 2 Demo.print2 Demo.garbled).
  - reflexivity.
  - reflexivity.
  - reflexivity.
  - cbn. lia.
  - discriminate.
  - reflexivity.
Defined.

Lemma body_that_is_no_array_witness :
  run (Demo.view (inr Demo.empty_object) Demo.queryset Demo.no_validators 2)
  = (inr {| resp_data := Some (JObj ∅); resp_status := 200; resp_headers := ∅ |},
     [EvGet "https://store/p2.json" 20 ∅; EvJson]).
Proof.
  apply (body_that_is_no_array
           Demo.PrinterPrediction Demo.calc_normalized_p
           Demo.detective_sensitivity_default
           (Demo.store (inr Demo.empty_object))
           Demo.queryset Demo.no_validators 2 Demo.print2 Demo.empty_object
           (JObj ∅)).
  - reflexivity.
  - reflexivity.
  - reflexivity.
  - cbn. lia.
  - discriminate.
  - reflexivity.
  - discriminate.
  - left; reflexivity.
Defined.

Lemma engine_called_once_per_frame_in_order_witness :
  ∃ resp,
    run (Demo.view (inr Demo.fresh) Demo.queryset Demo.no_validators 2)
    = (inr resp,
       [EvGet "https://store/p2.json" 20 ∅; EvJson;
        EvCalc 2%float ({[ "p" := JFloat 0.25%float ]} : gmap string json)]).
Proof.
  apply (engine_called_once_per_frame_in_order
           Demo.PrinterPrediction Demo.calc_normalized_p
           Demo.detective_sensitivity_default (Demo.store (inr Demo.fresh))
           Demo.queryset Demo.no_validators 2 Demo.print2 Demo.fresh
           Demo.frames).
  - reflexivity.
  - reflexivity.
  - reflexivity.
  - cbn. lia.
  - discriminate.
  - reflexivity.
  - vm_compute. reflexivity.
Defined.

Lemma first_bad_frame_aborts_witness :
  run (Demo.view (inr Demo.rotten_middle) Demo.queryset Demo.no_validators 2)
  = (inl TypeError,
     [EvGet "https://store/p2.json" 20 ∅; EvJson;
      EvCalc 2%float ({[ "p" := JFloat 0.25%float ]} : gmap string json)]).
Proof.
  apply (first_bad_frame_aborts
           Demo.PrinterPrediction Demo.calc_normalized_p
           Demo.detective_sensitivity_default
           (Demo.store (inr Demo.rotten_middle))
           Demo.queryset Demo.no_validators 2 Demo.print2 Demo.rotten_middle
           [Demo.frame1] (JObj {[ "fields" := JNull ]}) [Demo.frame1]).
  - reflexivity.
  - reflexivity.
  - reflexivity.
  - cbn. lia.
  - discriminate.
  - reflexivity.
  - vm_compute. reflexivity.
Defined.

Lemma only_normalized_p_is_rewritten_witness :
  ∃ resp t out d',
    run (Demo.view (inr Demo.fresh) Demo.queryset Demo.no_validators 2)
    = (inr resp, t) ∧
    resp_data resp = Some (JArr out) ∧
    out !! 0%nat = Some (JObj d') ∧
    ∃ kw', d' !! "fields" = Some (JObj kw') ∧
           kw' !! "p" = Some (JFloat 0.25%float) ∧
           kw' !! "normalized_p" = Some (JFloat 0.5%float).
Proof.
  destruct (run (Demo.view (inr Demo.fresh) Demo.queryset Demo.no_validators 2))
    as [res t] eqn:Hrun.
  assert (∃ resp, res = inr resp) as [resp ->].
  { vm_compute in Hrun. injection Hrun as <- _. by eexists. }
  destruct (only_normalized_p_is_rewritten
              Demo.PrinterPrediction Demo.calc_normalized_p
              Demo.detective_sensitivity_default (Demo.store (inr Demo.fresh))
              Demo.queryset Demo.no_validators 2 Demo.print2 Demo.fresh
              Demo.frames resp t 0%nat
              {[ "fields" := JObj {[ "p" := JFloat 0.25%float ]} ]})
    as (out & d' & Hdata & Hout & _ & Hfields).
  - reflexivity.
  - reflexivity.
  - reflexivity.
  - discriminate.
  - reflexivity.
  - exact Hrun.
  - reflexivity.
  - destruct (Hfields {[ "p" := JFloat 0.25%float ]} eq_refl)
      as (kw' & pred & v & Hkw' & Hother & Hp & Hc & Hv).
    exists resp, t, out, d'. split_and!; try done.
    exists kw'. split_and!; try done.
    + by rewrite Hother.
    + injection Hp as <-. vm_compute in Hc. injection Hc as <-. exact Hv.
Defined.

Lemma response_status_is_304_or_200_witness :
  ∃ resp t,
    run (Demo.view (inr Demo.multiple_choices) Demo.queryset
           Demo.no_validators 2) = (inr resp, t) ∧
    status_code Demo.multiple_choices = 300 ∧
    resp_status resp = 200 ∧ is_Some (resp_data resp).
Proof.
  destruct (run (Demo.view (inr Demo.multiple_choices) Demo.queryset
                   Demo.no_validators 2)) as [res t] eqn:Hrun.
  assert (∃ resp, res = inr resp) as [resp ->].
  { vm_compute in Hrun. injection Hrun as <- _. by eexists. }
  exists resp, t. split; [reflexivity|]. split; [reflexivity|].
  exact (response_status_is_304_or_200
           Demo.PrinterPrediction Demo.calc_normalized_p
           Demo.detective_sensitivity_default
           (Demo.store (inr Demo.multiple_choices))
           Demo.queryset Demo.no_validators 2 Demo.print2
           Demo.multiple_choices resp t eq_refl eq_refl eq_refl Hrun).
Defined.

(** * Properties of the other views *)

Section ViewProperties.

Set Default Proof Using "Type".

Context (Print_objects : list PrintRow).
Context (PrintShotFeedback_objects : list PrintShotFeedbackRow).
Context (Printer_with_archived : list PrinterRow).
Context (int : string → option Z).
Context (PrintSerializer : PrintRow → json).
Context (PrinterSerializer : PrinterRow → json).
Context (printer_method : PrinterRow → printer_call → view_exn + json).
Context (super_update : string → view_exn + json).
Context (EXT_3D_GEEKS_ENDPOINT : string).
Context (requests_post : string → json → view_exn + Z).

Local Notation "'list_queryset'" :=
  (PrintViewSet_list_queryset Print_objects PrintShotFeedback_objects).
Local Notation "'list_view'" :=
  (PrintViewSet_list Print_objects PrintShotFeedback_objects int PrintSerializer).

(** ** Slices *)

Lemma slice_index_range n i : 0 ≤ n → 0 ≤ slice_index n i ≤ n.
Proof. unfold slice_index. destruct (Z.ltb_spec i 0); lia. Qed.

Lemma py_slice_sublist {A} (l : list A) a b : py_slice l a b `sublist_of` l.
Proof.
  unfold py_slice. etrans; [apply sublist_take|apply sublist_drop].
Qed.

Lemma py_slice_length {A} (l : list A) a n :
  0 ≤ n → (length (py_slice l a (a + n)) ≤ Z.to_nat n)%nat.
Proof.
  intros Hn. unfold py_slice. rewrite length_take.
  pose proof (Nat2Z.is_nonneg (length l)) as HN.
  set (N := Z.of_nat (length l)) in *.
  assert (slice_index N (a + n) - slice_index N a ≤ n); [|lia].
  unfold slice_index.
  destruct (Z.ltb_spec (a + n) 0), (Z.ltb_spec a 0); lia.
Qed.

Lemma py_slice_nonneg {A} (l : list A) a n :
  0 ≤ a → 0 ≤ n →
  py_slice l a (a + n) = take (Z.to_nat n) (drop (Z.to_nat a) l).
Proof.
  intros Ha Hn. unfold py_slice, slice_index.
  destruct (Z.ltb_spec (a + n) 0), (Z.ltb_spec a 0); try lia.
  pose proof (Nat2Z.is_nonneg (length l)) as HN.
  set (N := Z.of_nat (length l)) in *.
  destruct (decide (a ≤ N)) as [Hle|Hgt].
  - rewrite (Z.min_l a N) by lia.
    destruct (decide (a + n ≤ N)).
    + rewrite (Z.min_l (a + n) N) by lia. do 2 f_equal. lia.
    + rewrite (Z.min_r (a + n) N) by lia.
      rewrite !take_ge; [done|rewrite length_drop; lia..].
  - rewrite !drop_ge by lia. by rewrite !take_nil.
Qed.

Lemma py_slice_tile {A} (l : list A) a n m :
  0 ≤ a → 0 ≤ n → 0 ≤ m →
  py_slice l a (a + (n + m))
  = py_slice l a (a + n) ++ py_slice l (a + n) (a + n + m).
Proof.
  intros Ha Hn Hm. rewrite !py_slice_nonneg by lia.
  rewrite !Z2Nat.inj_add by lia.
  by rewrite <- drop_drop, take_take_drop.
Qed.

(** ** The queryset of [PrintViewSet.list] *)

Lemma order_by_id_Permutation d qs : order_by_id d qs ≡ₚ qs.
Proof. destruct d; apply merge_sort_Permutation. Qed.

Lemma need_print_shot_feedback_elem_of qs r :
  r ∈ need_print_shot_feedback PrintShotFeedback_objects qs ↔
  r ∈ qs ∧ ∃ f, f ∈ PrintShotFeedback_objects ∧
                print_id (feedback_print f) = print_id r ∧ answered_at f = None.
Proof.
  unfold need_print_shot_feedback.
  rewrite elem_of_remove_dups, list_elem_of_bind. split.
  - intros (y & (f & -> & (? & ?)%list_elem_of_filter)%list_elem_of_fmap & ?).
    split; [done|]. by exists f.
  - intros (? & f & ? & ? & ?). exists r. split; [|done].
    apply list_elem_of_fmap. exists f. split; [done|].
    by apply list_elem_of_filter.
Qed.

Lemma list_queryset_elem_of user GET r :
  r ∈ list_queryset user GET →
  r ∈ Print_objects ∧ print_user r = user ∧ is_Some (video_url r).
Proof.
  unfold PrintViewSet_list_queryset.
  set (base := filter _ (filter _ Print_objects)).
  intros Hr.
  assert (r ∈ base) as (? & (? & ?)%list_elem_of_filter)%list_elem_of_filter;
    [|done].
  clearbody base.
  repeat case_decide; rewrite order_by_id_Permutation in Hr;
    repeat first
      [ apply need_print_shot_feedback_elem_of in Hr as [Hr _]
      | apply list_elem_of_filter in Hr as [_ Hr] ];
    exact Hr.
Qed.

Local Instance by_id_trans : Transitive by_id.
Proof. unfold by_id. intros a b c. lia. Qed.
Local Instance by_id_total : Total by_id.
Proof. unfold by_id. intros a b. lia. Qed.
Local Instance by_id_desc_trans : Transitive by_id_desc.
Proof. unfold by_id_desc. intros a b c. lia. Qed.
Local Instance by_id_desc_total : Total by_id_desc.
Proof. unfold by_id_desc. intros a b. lia. Qed.

Lemma StronglySorted_sublist {A} (R : relation A) (l1 l2 : list A) :
  l1 `sublist_of` l2 → StronglySorted R l2 → StronglySorted R l1.
Proof.
  induction 1 as [|x l1 l2 Hsub IH|x l1 l2 Hsub IH];
    rewrite ?StronglySorted_cons; [done|..].
  - intros [Hall Hs]. split; [|by apply IH].
    rewrite Forall_forall in *. intros y Hy.
    by apply Hall, (sublist_subseteq _ _ Hsub).
  - intros [_ Hs]. by apply IH.
Qed.

Lemma list_queryset_sorted user GET :
  if decide (GET !! "sorting" = Some "date_asc")
  then StronglySorted by_id (list_queryset user GET)
  else StronglySorted by_id_desc (list_queryset user GET).
Proof.
  unfold PrintViewSet_list_queryset.
  case_decide as Hs.
  - rewrite Hs. cbn [default]. rewrite decide_True by done.
    apply (StronglySorted_merge_sort by_id).
  - rewrite decide_False.
    + apply (StronglySorted_merge_sort by_id_desc).
    + destruct (GET !! "sorting") as [s|]; simpl; [|done].
      intros ->. by apply Hs.
Qed.

Lemma list_view_inv user GET resp :
  list_view user GET = inr resp →
  ∃ start limit,
    int (default "0" (GET !! "start")) = Some start ∧
    int (default "12" (GET !! "limit")) = Some limit ∧
    resp = mkResponse
             (Some (JArr (PrintSerializer
                            <$> py_slice (list_queryset user GET)
                                  start (start + limit))))
             None None.
Proof.
  unfold PrintViewSet_list.
  destruct (int (default "0" (GET !! "start"))) as [start|]; [|done].
  destruct (int (default "12" (GET !! "limit"))) as [limit|]; [|done].
  intros [= <-]. by exists start, limit.
Qed.

(** [PrintViewSet.list] never shows a print of another user, nor a print
    without a video: whatever the query parameters, every row of a
    returned page is a row of the table that belongs to the requesting
    user and has a [video_url]. *)
Theorem list_shows_own_prints_with_video user GET resp :
  list_view user GET = inr resp →
  ∃ results,
    resp_data resp = Some (JArr (PrintSerializer <$> results)) ∧
    resp_status resp = 200 ∧
    ∀ r, r ∈ results →
      r ∈ Print_objects ∧ print_user r = user ∧ is_Some (video_url r).
Proof.
  intros (start & limit & _ & _ & ->)%list_view_inv.
  eexists. split_and!; [done..|].
  intros r Hr%(sublist_subseteq _ _ (py_slice_sublist _ _ _)).
  by apply list_queryset_elem_of in Hr.
Qed.

Lemma list_queryset_filtered user GET r :
  r ∈ list_queryset user GET →
  (GET !! "filter" = Some "cancelled" → is_Some (cancelled_at r)) ∧
  (GET !! "filter" = Some "finished" → is_Some (finished_at r)) ∧
  (GET !! "filter" = Some "need_alert_overwrite" →
     alert_overwrite r = None ∧ is_Some (tagged_video_url r)) ∧
  (GET !! "filter" = Some "need_print_shot_feedback" →
     ∃ f, f ∈ PrintShotFeedback_objects ∧
          print_id (feedback_print f) = print_id r ∧ answered_at f = None).
Proof.
  unfold PrintViewSet_list_queryset.
  set (base := filter _ (filter _ Print_objects)). clearbody base.
  intros Hr.
  split_and!; intros Hf; rewrite Hf in Hr; simpl (default _ _) in Hr;
    repeat case_decide; try done;
    rewrite order_by_id_Permutation in Hr.
  all: try by apply list_elem_of_filter in Hr as [? _].
  all: by apply need_print_shot_feedback_elem_of in Hr as [_ ?].
Qed.

Lemma list_queryset_distinct user GET :
  GET !! "filter" = Some "need_print_shot_feedback" →
  NoDup (list_queryset user GET).
Proof.
  unfold PrintViewSet_list_queryset.
  set (base := filter _ (filter _ Print_objects)). clearbody base.
  intros Hf. rewrite Hf. simpl (default _ _).
  repeat case_decide; try done;
    rewrite order_by_id_Permutation; apply NoDup_remove_dups.
Qed.

(** Each named filter restricts the page: with [filter=cancelled] every
    row has [cancelled_at] set, with [filter=finished] every row has
    [finished_at] set, with [filter=need_alert_overwrite] every row has a
    tagged video and no alert overwrite, and with
    [filter=need_print_shot_feedback] every row has an unanswered feedback,
    and appears once. *)
Theorem list_filter_restricts_page user GET resp :
  list_view user GET = inr resp →
  ∃ results,
    resp_data resp = Some (JArr (PrintSerializer <$> results)) ∧
    (GET !! "filter" = Some "cancelled" →
       ∀ r, r ∈ results → is_Some (cancelled_at r)) ∧
    (GET !! "filter" = Some "finished" →
       ∀ r, r ∈ results → is_Some (finished_at r)) ∧
    (GET !! "filter" = Some "need_alert_overwrite" →
       ∀ r, r ∈ results →
         alert_overwrite r = None ∧ is_Some (tagged_video_url r)) ∧
    (GET !! "filter" = Some "need_print_shot_feedback" →
       NoDup results ∧
       ∀ r, r ∈ results →
         ∃ f, f ∈ PrintShotFeedback_objects ∧
              print_id (feedback_print f) = print_id r ∧
              answered_at f = None).
Proof.
  intros (start & limit & _ & _ & ->)%list_view_inv.
  eexists. split; [done|].
  pose proof (py_slice_sublist (list_queryset user GET) start (start + limit))
    as Hsub.
  assert (∀ r, r ∈ py_slice (list_queryset user GET) start (start + limit) →
            r ∈ list_queryset user GET) as Hin
    by (intros r; by apply sublist_subseteq).
  split_and!; intros Hf.
  - intros r (H1 & _)%Hin%list_queryset_filtered. by apply H1.
  - intros r (_ & H2 & _)%Hin%list_queryset_filtered. by apply H2.
  - intros r (_ & _ & H3 & _)%Hin%list_queryset_filtered. by apply H3.
  - split.
    + eapply sublist_NoDup; [|exact Hsub]. by apply list_queryset_distinct.
    + intros r (_ & _ & _ & H4)%Hin%list_queryset_filtered. by apply H4.
Qed.

(** With a limit that is not negative, a page never holds more than
    [limit] rows, whatever [start] is, negative values included. *)
Theorem list_page_holds_at_most_limit_rows user GET resp limit :
  list_view user GET = inr resp →
  int (default "12" (GET !! "limit")) = Some limit →
  0 ≤ limit →
  ∃ results,
    resp_data resp = Some (JArr (PrintSerializer <$> results)) ∧
    (length results ≤ Z.to_nat limit)%nat.
Proof.
  intros (start & limit' & _ & Hl & ->)%list_view_inv Hlimit Hpos.
  assert (limit' = limit) as -> by congruence.
  eexists. split; [done|]. by apply py_slice_length.
Qed.

(** A page is sorted by primary key: in ascending order when
    [sorting=date_asc], in descending order for any other value of
    [sorting] and when it is absent. *)
Theorem list_page_is_sorted_by_id user GET resp :
  list_view user GET = inr resp →
  ∃ results,
    resp_data resp = Some (JArr (PrintSerializer <$> results)) ∧
    if decide (GET !! "sorting" = Some "date_asc")
    then StronglySorted by_id results
    else StronglySorted by_id_desc results.
Proof.
  intros (start & limit & _ & _ & ->)%list_view_inv.
  eexists. split; [done|].
  pose proof (list_queryset_sorted user GET) as Hs.
  case_decide; (eapply StronglySorted_sublist; [apply py_slice_sublist|done]).
Qed.

Lemma list_queryset_ignores_paging user GET s l :
  list_queryset user (<["start" := s]> (<["limit" := l]> GET))
  = list_queryset user GET.
Proof.
  unfold PrintViewSet_list_queryset. by rewrite !lookup_insert_ne by done.
Qed.

Lemma list_view_page user GET s l a n :
  int s = Some a → int l = Some n →
  list_view user (<["start" := s]> (<["limit" := l]> GET))
  = inr (mkResponse
           (Some (JArr (PrintSerializer
                          <$> py_slice (list_queryset user GET) a (a + n))))
           None None).
Proof.
  intros Hs Hl. unfold PrintViewSet_list.
  rewrite list_queryset_ignores_paging.
  rewrite lookup_insert_eq, lookup_insert_ne, lookup_insert_eq by done.
  simpl (default _ _). by rewrite Hs, Hl.
Qed.

(** Consecutive pages tile the listing: with a start and limits that are
    not negative, the page at [start] of [limit1] rows followed by the
    page at [start + limit1] of [limit2] rows is the page at [start] of
    [limit1 + limit2] rows; no row is skipped or shown twice. *)
Theorem list_pages_tile user GET s1 l1 s2 l2 l3 a n m :
  int s1 = Some a → int l1 = Some n →
  int s2 = Some (a + n) → int l2 = Some m →
  int l3 = Some (n + m) →
  0 ≤ a → 0 ≤ n → 0 ≤ m →
  ∃ page1 page2,
    list_view user (<["start" := s1]> (<["limit" := l1]> GET))
    = inr (mkResponse (Some (JArr (PrintSerializer <$> page1))) None None) ∧
    list_view user (<["start" := s2]> (<["limit" := l2]> GET))
    = inr (mkResponse (Some (JArr (PrintSerializer <$> page2))) None None) ∧
    list_view user (<["start" := s1]> (<["limit" := l3]> GET))
    = inr (mkResponse (Some (JArr (PrintSerializer <$> (page1 ++ page2))))
             None None).
Proof.
  intros Hs1 Hl1 Hs2 Hl2 Hl3 Ha Hn Hm.
  rewrite (list_view_page _ _ _ _ _ _ Hs1 Hl1), (list_view_page _ _ _ _ _ _ Hs2 Hl2),
    (list_view_page _ _ _ _ _ _ Hs1 Hl3).
  exists (py_slice (list_queryset user GET) a (a + n)),
         (py_slice (list_queryset user GET) (a + n) (a + n + m)).
  split_and!; [done..|]. by rewrite py_slice_tile.
Qed.

(** ** [PrintShotFeedbackViewSet] *)

Local Notation "'get_queryset'" :=
  (PrintShotFeedbackViewSet_get_queryset PrintShotFeedback_objects int).
Local Notation "'update'" :=
  (PrintShotFeedbackViewSet_update PrintShotFeedback_objects int super_update).
Local Notation "'unanswered'" :=
  (λ user query_params,
     filter (λ f, answered_at f = None) (get_queryset user query_params)).
Local Notation "'credited'" :=
  (λ user query_params pk,
     ∃ f, unanswered user query_params = [f] ∧ int pk = Some (feedback_id f)).
Local Notation "'update_response'" :=
  (λ (instance : json) (dhs : Z),
     mkResponse
       (Some (JObj {[ "instance" := instance; "credited_dhs" := JInt dhs ]}))
       None None).

(** The queryset of the feedback views holds exactly the feedback on the
    prints of the requesting user, narrowed to one print when [print_id]
    is a number other than 0; a [print_id] that is absent, is no number,
    or is 0 narrows nothing. *)
Theorem feedback_queryset_scope user query_params f :
  f ∈ get_queryset user query_params ↔
  f ∈ PrintShotFeedback_objects ∧
  print_user (feedback_print f) = user ∧
  ∀ s n, query_params !! "print_id" = Some s → int s = Some n → n ≠ 0 →
         print_id (feedback_print f) = n.
Proof.
  unfold PrintShotFeedbackViewSet_get_queryset.
  destruct (query_params !! "print_id") as [s|].
  - destruct (int s) as [n|] eqn:Hn.
    + case_decide as H0; rewrite ?list_elem_of_filter.
      * split; [|by intros (? & ? & _)]. intros [? ?]. split_and!; [done..|].
        intros s' n' [= <-] Hn' ?. congruence.
      * split.
        -- intros (? & ? & ?). split_and!; [done..|].
           intros s' n' [= <-] Hn' ?. congruence.
        -- intros (? & ? & Hid). split_and!; [|done..]. by apply (Hid s n).
    + rewrite list_elem_of_filter. split; [|by intros (? & ? & _)].
      intros [? ?]. split_and!; [done..|]. intros s' n' [= <-] Hn'. congruence.
  - rewrite list_elem_of_filter. split; [|by intros (? & ? & _)].
    intros [? ?]. split_and!; [done..|]. by intros s' n' [=].
Qed.

Lemma first_singleton f : first [f] = Some f.
Proof. reflexivity. Qed.

(** Every run of [update], by the number of unanswered feedback in scope
    and the value of [pk]. *)
Lemma update_run user query_params pk :
  update user query_params pk []
  = match unanswered user query_params with
    | [f] =>
        match int pk with
        | None => (inl VValueError, [])
        | Some n =>
            if decide (feedback_id f = n) then
              match super_update pk with
              | inl e => (inl e, [credit_task user f; EvSuperUpdate pk])
              | inr d => (inr (update_response d 2),
                          [credit_task user f; EvSuperUpdate pk])
              end
            else
              match super_update pk with
              | inl e => (inl e, [EvSuperUpdate pk])
              | inr d => (inr (update_response d 0), [EvSuperUpdate pk])
              end
        end
    | _ =>
        match super_update pk with
        | inl e => (inl e, [EvSuperUpdate pk])
        | inr d => (inr (update_response d 0), [EvSuperUpdate pk])
        end
    end.
Proof.
  unfold PrintShotFeedbackViewSet_update.
  destruct (filter _ _) as [|f [|g l]]; cbn [length].
  - rewrite decide_False by done. unfold ebind, eemit, eret, eraise. cbn.
    by destruct (super_update pk).
  - rewrite decide_True by done. rewrite first_singleton.
    unfold ebind, eemit, eret, eraise.
    destruct (int pk) as [n|]; [|done].
    case_bool_decide; [rewrite decide_True by done|rewrite decide_False by done];
      cbn; by destruct (super_update pk).
  - rewrite decide_False by done. unfold ebind, eemit, eret, eraise. cbn.
    by destruct (super_update pk).
Qed.

(** The response of [update] reports 2 credited hours exactly when there
    is one unanswered feedback in scope and [pk] is its primary key, and
    0 otherwise; [instance] is the data of the underlying update. *)
Theorem update_reports_credit user query_params pk resp t :
  update user query_params pk [] = (inr resp, t) →
  ∃ instance dhs,
    super_update pk = inr instance ∧
    resp_data resp
    = Some (JObj {[ "instance" := instance; "credited_dhs" := JInt dhs ]}) ∧
    (dhs = 2 ∧ credited user query_params pk ∨
     dhs = 0 ∧ ¬ credited user query_params pk).
Proof.
  rewrite update_run.
  destruct (filter _ _) as [|f [|g l]] eqn:Hu.
  - destruct (super_update pk) as [e|d]; intros [= <- <-].
    exists d, 0. split_and!; [done..|]. right. split; [done|]. by intros (? & ? & ?).
  - destruct (int pk) as [n|]; [|done]. case_decide as Hn.
    + destruct (super_update pk) as [e|d]; intros [= <- <-].
      exists d, 2. split_and!; [done..|]. left. split; [done|].
      exists f. by subst.
    + destruct (super_update pk) as [e|d]; intros [= <- <-].
      exists d, 0. split_and!; [done..|]. right. split; [done|].
      intros (f' & [= <-] & [= ?]). done.
  - destruct (super_update pk) as [e|d]; intros [= <- <-].
    exists d, 0. split_and!; [done..|]. right. split; [done|]. by intros (? & ? & ?).
Qed.

(** The credit task is sent exactly when the request is credited: then
    it is the first event of the request, before the underlying update is
    called, with the requesting user, the amount 2 and the print of the
    feedback; otherwise no task is sent at all. *)
Theorem credit_task_sent_iff_credited user query_params pk res t :
  update user query_params pk [] = (res, t) →
  (∀ f, unanswered user query_params = [f] → int pk = Some (feedback_id f) →
        t = [credit_task user f; EvSuperUpdate pk]) ∧
  (¬ credited user query_params pk →
   ∀ name args, EvSendTask name args ∉ t).
Proof.
  rewrite update_run. intros Hrun. split.
  - intros f Hu Hpk. rewrite Hu, Hpk, decide_True in Hrun by done.
    by destruct (super_update pk); injection Hrun as _ <-.
  - intros Hnot name args.
    assert (t = [] ∨ t = [EvSuperUpdate pk]) as [-> | ->].
    { destruct (filter _ _) as [|f [|g l]] eqn:Hu.
      - right. by destruct (super_update pk); injection Hrun as _ <-.
      - destruct (int pk) as [n|] eqn:Hpk; [|left; by injection Hrun as _ <-].
        case_decide as Hn.
        + destruct Hnot. exists f. by subst.
        + right. by destruct (super_update pk); injection Hrun as _ <-.
      - right. by destruct (super_update pk); injection Hrun as _ <-. }
    + apply not_elem_of_nil.
    + by intros [?|[]%elem_of_nil]%elem_of_cons.
Qed.

(** The credit does not wait for the update: when the request is credited
    and the underlying update then raises, the request fails with that
    exception, and the credit task has been sent all the same. *)
Theorem credit_sent_even_when_update_fails user query_params pk f e :
  unanswered user query_params = [f] →
  int pk = Some (feedback_id f) →
  super_update pk = inl e →
  update user query_params pk []
  = (inl e, [credit_task user f; EvSuperUpdate pk]).
Proof.
  intros Hu Hpk He. rewrite update_run, Hu, Hpk, decide_True by done.
  by rewrite He.
Qed.

(** [pk] is parsed only when exactly one unanswered feedback is in scope:
    then a [pk] that is no number makes the request fail with
    [ValueError] before anything is sent or updated; with none or several
    unanswered, such a [pk] is passed on to the underlying update, and
    nothing is credited. *)
Theorem pk_is_parsed_only_for_one_unanswered user query_params pk :
  int pk = None →
  (length (unanswered user query_params) = 1%nat →
   update user query_params pk [] = (inl VValueError, [])) ∧
  (length (unanswered user query_params) ≠ 1%nat →
   update user query_params pk []
   = (match super_update pk with
      | inl e => inl e
      | inr d => inr (update_response d 0)
      end, [EvSuperUpdate pk])).
Proof.
  intros Hpk. rewrite update_run.
  destruct (filter _ _) as [|f [|g l]]; cbn [length]; split; try done.
  - intros _. by destruct (super_update pk).
  - intros _. by rewrite Hpk.
  - intros _. by destruct (super_update pk).
Qed.

(** ** The command endpoints of [PrinterViewSet] *)

Local Notation "'printer_or_404'" :=
  (current_printer_or_404 Printer_with_archived).
Local Notation "'simple_command'" :=
  (PrinterViewSet_simple_command Printer_with_archived PrinterSerializer
     printer_method).
Local Notation "'mute'" :=
  (PrinterViewSet_mute_current_print Printer_with_archived PrinterSerializer
     printer_method).
Local Notation "'acknowledge'" :=
  (PrinterViewSet_acknowledge_alert Printer_with_archived PrinterSerializer
     printer_method).
Local Notation "'send_command'" :=
  (PrinterViewSet_send_command Printer_with_archived PrinterSerializer
     printer_method).
Local Notation "'command_response'" :=
  (λ (printer : PrinterRow) (succeeded : json),
     mkResponse
       (Some (JObj {[ "succeeded" := succeeded;
                      "printer" := PrinterSerializer printer ]}))
       None None).

(** The printer found is one of the requesting user with that primary
    key; none is found exactly when the user has no such printer. *)
Lemma printer_or_404_spec user pk t :
  (∃ printer,
     printer_or_404 user pk t = (inr printer, t) ∧
     printer ∈ Printer_with_archived ∧
     printer_user printer = user ∧ printer_id printer = pk) ∨
  (printer_or_404 user pk t = (inl VHttp404, t) ∧
   ∀ r, r ∈ Printer_with_archived → printer_user r = user → printer_id r ≠ pk).
Proof.
  unfold current_printer_or_404.
  destruct (filter _ (filter _ _)) as [|printer l] eqn:Hf; cbn [head].
  - right. split; [done|]. intros r Hr Hu Hid.
    assert (r ∈ filter (λ r, printer_id r = pk)
                  (filter (λ r, printer_user r = user) Printer_with_archived))
      as Hin by (rewrite !list_elem_of_filter; done).
    rewrite Hf in Hin. by apply elem_of_nil in Hin.
  - left. exists printer. split; [done|].
    assert (printer ∈ printer :: l) as Hin by apply list_elem_of_here.
    rewrite <- Hf, !list_elem_of_filter in Hin.
    by destruct Hin as (? & ? & ?).
Qed.


(** [cancel_print], [pause_print] and [resume_print] call the method on a
    printer of the requesting user with primary key [pk], once.  When the
    method returns, its value is reported as [succeeded] and the status is
    pushed to the web once, after the call; when it raises, the exception
    escapes and no status is pushed. *)
Theorem simple_command_outcome c user pk printer :
  printer_or_404 user pk [] = (inr printer, []) →
  printer ∈ Printer_with_archived ∧
  printer_user printer = user ∧ printer_id printer = pk ∧
  simple_command c user pk []
  = match printer_method printer c with
    | inr v => (inr (command_response printer v),
                [EvPrinterCall pk c; EvSendStatusToWeb pk])
    | inl e => (inl e, [EvPrinterCall pk c])
    end.
Proof.
  intros Hfound.
  destruct (printer_or_404_spec user pk []) as [(pr & Hpr & Hin & Hu & Hid)|[H404 _]];
    [|congruence].
  assert (pr = printer) as -> by congruence.
  split_and!; [done..|].
  unfold PrinterViewSet_simple_command, call_printer, send_command_response.
  unfold ebind at 1. rewrite Hfound.
  unfold ebind, eemit, eret, eraise. cbn. rewrite Hid.
  by destruct (printer_method printer c).
Qed.

(** [mute_current_print] mutes exactly when the query parameter
    [mute_alert], in lower case, is [true]; when it is absent the printer
    is told not to mute.  The response says [succeeded: true] whatever the
    method returned. *)
Theorem mute_flag_is_case_insensitive_true user GET pk printer :
  printer_or_404 user pk [] = (inr printer, []) →
  ∃ flag : bool,
    (flag = true ↔ ∃ s, GET !! "mute_alert" = Some s ∧ lower s = "true") ∧
    mute user GET pk []
    = match printer_method printer (mute_current_print flag) with
      | inr _ => (inr (command_response printer (JBool true)),
                  [EvPrinterCall pk (mute_current_print flag);
                   EvSendStatusToWeb pk])
      | inl e => (inl e, [EvPrinterCall pk (mute_current_print flag)])
      end.
Proof.
  intros Hfound.
  destruct (printer_or_404_spec user pk []) as [(pr & Hpr & Hin & Hu & Hid)|[H404 _]];
    [|congruence].
  assert (pr = printer) as -> by congruence.
  exists (bool_decide (lower (default "false" (GET !! "mute_alert")) = "true")).
  split.
  - rewrite bool_decide_eq_true.
    destruct (GET !! "mute_alert") as [s|]; simpl.
    + split; [intros ?; by exists s|]. by intros (? & [= <-] & ?).
    + split; [done|]. by intros (? & ? & ?).
  - unfold PrinterViewSet_mute_current_print, call_printer, send_command_response.
    unfold ebind at 1. rewrite Hfound.
    unfold ebind, eemit, eret, eraise. cbn. rewrite Hid.
    by destruct (printer_method printer _).
Qed.

(** [send_command] needs both [cmd] and [args] in the request data: when
    one is missing the request fails with [KeyError] on the first missing
    key, and nothing is sent to the printer. *)
Theorem send_command_needs_cmd_and_args user data pk printer :
  current_printer_or_404 Printer_with_archived user pk [] = (inr printer, []) →
  (data !! "cmd" = None →
   PrinterViewSet_send_command Printer_with_archived PrinterSerializer
     printer_method user data pk []
   = (inl (VKeyError "cmd"), [])) ∧
  (is_Some (data !! "cmd") → data !! "args" = None →
   PrinterViewSet_send_command Printer_with_archived PrinterSerializer
     printer_method user data pk []
   = (inl (VKeyError "args"), [])).
Proof.
  intros Hfound.
  unfold PrinterViewSet_send_command, getitem.
  split.
  - intros Hc. unfold ebind at 1. rewrite Hfound.
    unfold ebind at 1. by rewrite Hc.
  - intros [cmd Hc] Ha. unfold ebind at 1. rewrite Hfound.
    unfold ebind at 1. rewrite Hc. unfold eret at 1.
    unfold ebind at 1. by rewrite Ha.
Qed.


End ViewProperties.

Lemma list_shows_own_prints_with_video_witness :
  ∃ results,
    Demo2.list_view 7 (Demo2.page "1" "2")
    = inr (mkResponse (Some (JArr (Demo2.PrintSerializer <$> results))) None None) ∧
    ∀ r, r ∈ results → print_user r = 7.
Proof.
  destruct (list_shows_own_prints_with_video
              Demo2.Print_objects Demo2.PrintShotFeedback_objects Demo2.int
              Demo2.PrintSerializer 7 (Demo2.page "1" "2")
              (mkResponse (Some (JArr [JInt 4; JInt 1])) None None))
    as (results & Hdata & _ & Hall).
  - vm_compute. reflexivity.
  - exists results. split.
    + cbn in Hdata. injection Hdata as <-. vm_compute. reflexivity.
    + intros r Hr. by destruct (Hall r Hr) as (_ & ? & _).
Defined.

Lemma list_filter_restricts_page_witness :
  ∃ results,
    Demo2.list_view 7 {[ "filter" := "cancelled" ]}
    = inr (mkResponse (Some (JArr (Demo2.PrintSerializer <$> results))) None None) ∧
    ∀ r, r ∈ results → is_Some (cancelled_at r).
Proof.
  destruct (list_filter_restricts_page
              Demo2.Print_objects Demo2.PrintShotFeedback_objects Demo2.int
              Demo2.PrintSerializer 7 {[ "filter" := "cancelled" ]}
              (mkResponse (Some (JArr [JInt 4])) None None))
    as (results & Hdata & Hc & _).
  - vm_compute. reflexivity.
  - exists results. split.
    + cbn in Hdata. injection Hdata as <-. vm_compute. reflexivity.
    + apply Hc. reflexivity.
Defined.

Lemma list_page_holds_at_most_limit_rows_witness :
  ∃ results,
    Demo2.list_view 7 (Demo2.page "-2" "1")
    = inr (mkResponse (Some (JArr (Demo2.PrintSerializer <$> results))) None None) ∧
    (length results ≤ 1)%nat.
Proof.
  destruct (list_page_holds_at_most_limit_rows
              Demo2.Print_objects Demo2.PrintShotFeedback_objects Demo2.int
              Demo2.PrintSerializer 7 (Demo2.page "-2" "1")
              (mkResponse (Some (JArr [JInt 4])) None None) 1)
    as (results & Hdata & Hlen).
  - vm_compute. reflexivity.
  - reflexivity.
  - lia.
  - exists results. split.
    + cbn in Hdata. injection Hdata as <-. vm_compute. reflexivity.
    + exact Hlen.
Defined.

Lemma list_page_is_sorted_by_id_witness :
  ∃ results,
    Demo2.list_view 7 {[ "sorting" := "date_asc" ]}
    = inr (mkResponse (Some (JArr (Demo2.PrintSerializer <$> results))) None None) ∧
    StronglySorted by_id results.
Proof.
  destruct (list_page_is_sorted_by_id
              Demo2.Print_objects Demo2.PrintShotFeedback_objects Demo2.int
              Demo2.PrintSerializer 7 {[ "sorting" := "date_asc" ]}
              (mkResponse (Some (JArr [JInt 1; JInt 4; JInt 5])) None None))
    as (results & Hdata & Hs).
  - vm_compute. reflexivity.
  - exists results. split.
    + cbn in Hdata. injection Hdata as <-. vm_compute. reflexivity.
    + exact Hs.
Defined.

Lemma list_pages_tile_witness :
  ∃ page1 page2,
    Demo2.list_view 7 (Demo2.page "0" "1")
    = inr (mkResponse (Some (JArr (Demo2.PrintSerializer <$> page1))) None None) ∧
    Demo2.list_view 7 (Demo2.page "1" "2")
    = inr (mkResponse (Some (JArr (Demo2.PrintSerializer <$> page2))) None None) ∧
    Demo2.list_view 7 (Demo2.page "0" "3")
    = inr (mkResponse (Some (JArr (Demo2.PrintSerializer <$> (page1 ++ page2))))
             None None).
Proof.
  destruct (list_pages_tile
              Demo2.Print_objects Demo2.PrintShotFeedback_objects Demo2.int
              Demo2.PrintSerializer 7 ∅ "0" "1" "1" "2" "3" 0 1 2)
    as (page1 & page2 & H1 & H2 & H3);
    [reflexivity| reflexivity| reflexivity| reflexivity| reflexivity
    | lia | lia | lia |].
  exists page1, page2. split_and!; [exact H1|exact H2|exact H3].
Defined.

Lemma update_reports_credit_witness :
  ∃ resp t,
    PrintShotFeedbackViewSet_update Demo2.PrintShotFeedback_objects Demo2.int
      Demo2.super_update_ok 7 ∅ "10" [] = (inr resp, t) ∧
    resp_data resp
    = Some (JObj {[ "instance" := JObj {[ "id" := JStr "10" ]};
                    "credited_dhs" := JInt 2 ]}).
Proof.
  destruct (PrintShotFeedbackViewSet_update Demo2.PrintShotFeedback_objects
              Demo2.int Demo2.super_update_ok 7 ∅ "10" []) as [res t] eqn:Hrun.
  assert (∃ resp, res = inr resp) as [resp ->].
  { vm_compute in Hrun. injection Hrun as <- _. by eexists. }
  destruct (update_reports_credit
              Demo2.PrintShotFeedback_objects Demo2.int Demo2.super_update_ok
              7 ∅ "10" resp t Hrun)
    as (instance & dhs & Hi & Hdata & [[-> _]|[_ Hnot]]).
  - exists resp, t. split; [reflexivity|]. injection Hi as <-. exact Hdata.
  - destruct Hnot. exists Demo2.feedback10. split; reflexivity.
Defined.

Lemma credit_task_sent_iff_credited_witness :
  ∃ res,
    PrintShotFeedbackViewSet_update Demo2.PrintShotFeedback_objects Demo2.int
      Demo2.super_update_ok 7 ∅ "10" []
    = (res, [credit_task 7 Demo2.feedback10; EvSuperUpdate "10"]).
Proof.
  destruct (PrintShotFeedbackViewSet_update Demo2.PrintShotFeedback_objects
              Demo2.int Demo2.super_update_ok 7 ∅ "10" []) as [res t] eqn:Hrun.
  exists res. f_equal.
  exact (proj1 (credit_task_sent_iff_credited
                  Demo2.PrintShotFeedback_objects Demo2.int
                  Demo2.super_update_ok 7 ∅ "10" res t Hrun)
           Demo2.feedback10 eq_refl eq_refl).
Defined.

Lemma credit_sent_even_when_update_fails_witness :
  PrintShotFeedbackViewSet_update Demo2.PrintShotFeedback_objects Demo2.int
    Demo2.super_update 7 ∅ "10" []
  = (inl (VOther "ValidationError"),
     [credit_task 7 Demo2.feedback10; EvSuperUpdate "10"]).
Proof.
  apply (credit_sent_even_when_update_fails
           Demo2.PrintShotFeedback_objects Demo2.int Demo2.super_update
           7 ∅ "10" Demo2.feedback10 (VOther "ValidationError"));
    reflexivity.
Defined.

Lemma pk_is_parsed_only_for_one_unanswered_witness :
  PrintShotFeedbackViewSet_update Demo2.PrintShotFeedback_objects Demo2.int
    Demo2.super_update_ok 7 ∅ "ten" []
  = (inl VValueError, []).
Proof.
  apply (proj1 (pk_is_parsed_only_for_one_unanswered
                  Demo2.PrintShotFeedback_objects Demo2.int
                  Demo2.super_update_ok 7 ∅ "ten" eq_refl)).
  reflexivity.
Defined.


Lemma simple_command_outcome_witness :
  PrinterViewSet_cancel_print Demo2.Printer_with_archived
    Demo2.PrinterSerializer Demo2.printer_method 7 1 []
  = (inr (mkResponse
            (Some (JObj {[ "succeeded" := JBool false; "printer" := JInt 1 ]}))
            None None),
     [EvPrinterCall 1 cancel_print; EvSendStatusToWeb 1]).
Proof.
  destruct (simple_command_outcome
              Demo2.Printer_with_archived Demo2.PrinterSerializer
              Demo2.printer_method cancel_print 7 1 Demo2.printer1 eq_refl)
    as (_ & _ & _ & Hrun).
  exact Hrun.
Defined.

Lemma mute_flag_is_case_insensitive_true_witness :
  ∃ flag : bool,
    (flag = true ↔
     ∃ s, ({[ "mute_alert" := "True" ]} : gmap string string) !! "mute_alert"
          = Some s ∧ lower s = "true") ∧
    PrinterViewSet_mute_current_print Demo2.Printer_with_archived
      Demo2.PrinterSerializer Demo2.printer_method 7
      {[ "mute_alert" := "True" ]} 1 []
    = (inr (mkResponse
              (Some (JObj {[ "succeeded" := JBool true; "printer" := JInt 1 ]}))
              None None),
       [EvPrinterCall 1 (mute_current_print flag); EvSendStatusToWeb 1]).
Proof.
  destruct (mute_flag_is_case_insensitive_true
              Demo2.Printer_with_archived Demo2.PrinterSerializer
              Demo2.printer_method 7 {[ "mute_alert" := "True" ]} 1
              Demo2.printer1 eq_refl)
    as (flag & Hflag & Hrun).
  exists flag. split; [exact Hflag|]. exact Hrun.
Defined.

Lemma send_command_needs_cmd_and_args_witness :
  PrinterViewSet_send_command Demo2.Printer_with_archived
    Demo2.PrinterSerializer Demo2.printer_method 7
    {[ "cmd" := JStr "home" ]} 1 []
  = (inl (VKeyError "args"), []).
Proof.
  apply (proj2 (send_command_needs_cmd_and_args
                  Demo2.Printer_with_archived Demo2.PrinterSerializer
                  Demo2.printer_method 7 {[ "cmd" := JStr "home" ]} 1
                  Demo2.printer1 eq_refl)).
  - by eexists.
  - reflexivity.
Defined.

